(** * pubmatch: retrieval, normalisation and record extraction

    A shallow embedding of [scripts/pubmatch.py]: the batched PubMed
    download of [get_clean_xml] (session set-up, windowed fetch with its
    retry handler, removal of the per-batch XML headers) and the record
    extraction of [article_from_pubmed].

    Python values are dynamically typed, so record fields and dictionary
    entries hold [pyval]s; dictionaries are finite maps with string keys;
    exceptions and the effects on the files and on the remote service are
    threaded through a state-and-exception monad. *)

From Stdlib Require Import ZArith String Ascii List Lia Bool.
From stdpp Require Import gmap strings.
Import ListNotations.

Set Warnings "-register-all".
Set Default Proof Using "Type".

Open Scope string_scope.
Open Scope Z_scope.

(** ** Python values *)

Inductive pyval : Type :=
| PyNone
| PyStr (s : string)
| PyInt (z : Z)
| PyList (l : list pyval).

(** [x.text]-like attributes are [None] or a [str]. *)
Definition of_text (t : option string) : pyval :=
  match t with
  | Some s => PyStr s
  | None => PyNone
  end.

Definition is_none (v : pyval) : bool :=
  match v with
  | PyNone => true
  | _ => false
  end.

(** ** xml.etree.ElementTree *)

Module ET.

(** An element: tag, attribute dictionary (in document order), text before
    the first child, children, and text after the end tag.  Comments and
    processing instructions are dropped by the default parser, so every node
    of a parsed tree is an element with a string tag. *)
Inductive Element : Type :=
| Elem (tag : string) (attrib : list (string * string))
       (text : option string) (children : list Element)
       (tail : option string).

Definition tag (e : Element) : string :=
  match e with Elem t _ _ _ _ => t end.
Definition attrib (e : Element) : list (string * string) :=
  match e with Elem _ a _ _ _ => a end.
Definition text (e : Element) : option string :=
  match e with Elem _ _ t _ _ => t end.
Definition children (e : Element) : list Element :=
  match e with Elem _ _ _ c _ => c end.
Definition tail (e : Element) : option string :=
  match e with Elem _ _ _ _ t => t end.

(** [Element.iter()]: the element, then its descendants, in document order. *)
Fixpoint iter (e : Element) : list Element :=
  match e with
  | Elem _ _ _ cs _ => e :: List.flat_map iter cs
  end.

Definition has_tag (t : string) (e : Element) : bool := String.eqb (tag e) t.

(** The two ElementPath steps the module uses: [//t] and [/t]. *)
Inductive step : Type :=
| Descendant (t : string)
| Child (t : string).

(** ElementPath's [select] for one step over the current result list;
    [//t] runs [elem.iter(t)] and leaves out [elem] itself. *)
Definition select (s : step) (result : list Element) : list Element :=
  match s with
  | Descendant t =>
      List.flat_map
        (fun elem => List.filter (has_tag t) (List.flat_map iter (children elem)))
        result
  | Child t =>
      List.flat_map (fun elem => List.filter (has_tag t) (children elem)) result
  end.

Definition iterfind (elem : Element) (path : list step) : list Element :=
  fold_left (fun result s => select s result) path [elem].

Definition findall (elem : Element) (path : list step) : list Element :=
  iterfind elem path.

Definition find (elem : Element) (path : list step) : option Element :=
  List.head (iterfind elem path).

(** [findtext]: the first match's text, [""] when that text is [None], and
    the default [None] when nothing matches. *)
Definition findtext (elem : Element) (path : list step) : option string :=
  match find elem path with
  | Some e => Some (match text e with Some s => s | None => "" end)
  | None => None
  end.

(** [bool(element)] is [len(element) != 0]: an element without children is
    falsy whatever text it carries. *)
Definition truthy (e : Element) : bool :=
  match children e with
  | [] => false
  | _ :: _ => true
  end.

Definition or_empty (t : option string) : string :=
  match t with Some s => s | None => "" end.

(** [Element.itertext()], concatenated. *)
Fixpoint itertext (e : Element) : string :=
  match e with
  | Elem _ _ t cs _ =>
      or_empty t +:+
      fold_right (fun c acc => itertext c +:+ or_empty (tail c) +:+ acc) "" cs
  end.

(** [ET.tostring(e, encoding='utf-8', method='text').decode("utf-8")]: the
    text serialiser writes [itertext] and then the element's own tail. *)
Definition tostring_text (e : Element) : string :=
  itertext e +:+ or_empty (tail e).

End ET.

(** ** The Article dataclass *)

Record Article : Type := mkArticle {
  my_id : pyval;
  doi : pyval;
  pmid : pyval;
  authors : pyval;
  title : pyval;
  abstract : pyval;
  content : pyval;
  journal : pyval;
  year : pyval;
  references : pyval
}.

(** The dataclass constructor called with the dictionary [fields] as keyword
    arguments: a keyword that is given wins, also when its value
    is [None]; the declared default is used only for a missing keyword. *)
Definition Article_init (fields : gmap string pyval) : Article :=
  {| my_id := default PyNone (fields !! "my_id");
     doi := default PyNone (fields !! "doi");
     pmid := default PyNone (fields !! "pmid");
     authors := default (PyList []) (fields !! "authors");
     title := default PyNone (fields !! "title");
     abstract := default PyNone (fields !! "abstract");
     content := default PyNone (fields !! "content");
     journal := default PyNone (fields !! "journal");
     year := default (PyInt 0) (fields !! "year");
     references := default (PyList []) (fields !! "references") |}.

(** ** article_from_pubmed *)

(** ['v' in Id.attrib.values()] *)
Definition in_attrib_values (v : string) (Id : ET.Element) : bool :=
  existsb (fun kv => String.eqb v (snd kv)) (ET.attrib Id).

(** Body of [for Id in articleids]. *)
Definition scan_id (fields : gmap string pyval) (Id : ET.Element)
  : gmap string pyval :=
  let fields :=
    if in_attrib_values "doi" Id
    then <["doi" := of_text (ET.text Id)]> fields else fields in
  if in_attrib_values "pubmed" Id
  then <["pmid" := of_text (ET.text Id)]> fields else fields.

Definition resolve_my_id (fields : gmap string pyval) : gmap string pyval :=
  match fields !! "doi" with
  | Some d => <["my_id" := d]> fields
  | None =>
      match fields !! "pmid" with
      | Some p => <["my_id" := p]> fields
      | None => fields
      end
  end.

Definition path_ArticleId := [ET.Descendant "ArticleId"].
Definition path_LastName :=
  [ET.Descendant "AuthorList"; ET.Child "Author"; ET.Child "LastName"].
Definition path_ArticleTitle := [ET.Descendant "ArticleTitle"].
Definition path_ISOAbbreviation := [ET.Descendant "ISOAbbreviation"].
Definition path_Year :=
  [ET.Descendant "JournalIssue"; ET.Child "PubDate"; ET.Child "Year"].
Definition path_Abstract := [ET.Descendant "Abstract"].

Definition article_fields (root : ET.Element) : gmap string pyval :=
  let fields : gmap string pyval := ∅ in
  let articleids := ET.findall root path_ArticleId in
  let fields := fold_left scan_id articleids fields in
  let fields := resolve_my_id fields in
  let authors :=
    List.map (fun surname => of_text (ET.text surname))
             (ET.findall root path_LastName) in
  let fields := <["authors" := PyList authors]> fields in
  let fields := <["title" := of_text (ET.findtext root path_ArticleTitle)]> fields in
  let fields := <["journal" := of_text (ET.findtext root path_ISOAbbreviation)]> fields in
  let fields := <["year" := of_text (ET.findtext root path_Year)]> fields in
  let abstract := ET.find root path_Abstract in
  match abstract with
  | Some a =>
      if ET.truthy a
      then <["abstract" := PyStr (ET.tostring_text a)]> fields
      else fields
  | None => fields
  end.

Definition article_from_pubmed (root : ET.Element) : Article :=
  Article_init (article_fields root).

(** ** Exceptions and effects of get_clean_xml *)

(** The exceptions the function can meet.  [HTTPError] and [OtherError] are
    raised by the remote calls; the rest by the interpreter. *)
Inductive exn : Type :=
| NameError (name : string)
| UnboundLocalError (name : string)
| KeyError (key : string)
| AssertionError
| ValueError (msg : string)
| TypeError (msg : string)
| HTTPError (code : Z)
| OtherError (cls : string).

(** The Python class of an exception value. *)
Definition exn_class (e : exn) : string :=
  match e with
  | NameError _ => "NameError"
  | UnboundLocalError _ => "UnboundLocalError"
  | KeyError _ => "KeyError"
  | AssertionError => "AssertionError"
  | ValueError _ => "ValueError"
  | TypeError _ => "TypeError"
  | HTTPError _ => "HTTPError"
  | OtherError cls => cls
  end.

(** What is printed; the numbers are kept instead of their formatting. *)
Inductive message : Type :=
| MsgRecords (count : Z) (search_term : string)
| MsgDownload (first last : Z)
| MsgServerError (err : exn)
| MsgAttempt (attempt : Z).

(** Observable actions, in the order they happen. *)
Inductive event : Type :=
| EvSearch (term : string) (retmax : Z) (usehistory : bool)
| EvPost (ids : string)
| EvFetch (retstart retmax : Z) (webenv query_key api_key : pyval)
| EvSleep (secs : Z)
| EvPrint (m : message)
| EvWrite (data : string).

(** The files the function touches ([None]: the file does not exist) and the
    log of its actions. *)
Record world : Type := mkWorld {
  trace : list event;
  file_batched : option string;
  file_cleaned : option string
}.

Inductive result (A : Type) : Type :=
| Ok (a : A) (w : world)
| Raise (e : exn) (w : world).
Arguments Ok {A} a w.
Arguments Raise {A} e w.

Definition final_world {A} (r : result A) : world :=
  match r with
  | Ok _ w => w
  | Raise _ w => w
  end.

(** Computations that read and change the world and may raise. *)
Definition M (A : Type) : Type := world -> result A.

#[global] Instance M_ret : MRet M := fun A a w => Ok a w.
#[global] Instance M_bind : MBind M := fun A B f m w =>
  match m w with
  | Ok a w' => f a w'
  | Raise e w' => Raise e w'
  end.

Definition raise {A} (e : exn) : M A := fun w => Raise e w.

Definition log (ev : event) : M unit := fun w =>
  Ok tt {| trace := trace w ++ [ev];
           file_batched := file_batched w;
           file_cleaned := file_cleaned w |}.

Definition print (m : message) : M unit := log (EvPrint m).

(** What a call to the remote service gives back. *)
Inductive reply (A : Type) : Type :=
| Returns (a : A)
| Raises (e : exn).
Arguments Returns {A} a.
Arguments Raises {A} e.

Definition call {A} (r : reply A) : M A :=
  match r with
  | Returns a => mret a
  | Raises e => raise e
  end.

(** The Entrez functions the module calls.  [esearch] and [epost] stand for
    the call followed by [Entrez.read]; [efetch] gives the text the returned
    handle will read.  The last argument of [efetch] numbers the calls made
    for one window, so that the replies to repeated identical requests may
    differ. *)
Record EntrezService : Type := {
  esearch : string -> Z -> bool -> reply (gmap string pyval);
  epost : string -> reply (gmap string pyval);
  efetch : Z -> Z -> pyval -> pyval -> pyval -> Z -> reply string
}.

(** ** Names visible in the module *)

(** The names bound at module level: the imports of lines 3 to 16 and the
    module's own definitions. *)
Definition module_globals : list string :=
  [ "Path"; "Entrez"; "ET"; "pickle"; "Works"; "Etiquette"; "nltk";
    "sent_tokenize"; "word_tokenize"; "np"; "re"; "defaultdict";
    "dataclass"; "field"; "Dict"; "List"; "Any"; "tempfile"; "os";
    "get_clean_xml"; "Article"; "article_from_pubmed"; "create_corpus";
    "get_pubmed_summary" ].

(** The builtins [get_clean_xml] refers to. *)
Definition builtins : list string :=
  [ "int"; "len"; "print"; "open"; "range"; "min" ].

(** The global and builtin names [get_clean_xml] loads. *)
Definition get_clean_xml_names : list string :=
  [ "tempfile"; "Entrez"; "int"; "len"; "print"; "open"; "range"; "min";
    "HTTPError"; "time"; "os" ].

Definition name_bound (G : list string) (x : string) : bool :=
  existsb (String.eqb x) G || existsb (String.eqb x) builtins.

(** Loading a global name: [NameError] when it is bound nowhere. *)
Definition load_name (G : list string) (x : string) : M unit :=
  if name_bound G x then mret tt else raise (NameError x).

(** ** Builtins on values *)

(** A [str] is held as its UTF-8 encoding, one [ascii] per byte: a
    character is a leading byte with the continuation bytes that follow
    it. *)
Definition byte_of (c : ascii) : Z := Z.of_nat (nat_of_ascii c).

Definition is_continuation (c : ascii) : bool :=
  (0x80 <=? byte_of c) && (byte_of c <? 0xC0).

(** The characters of a [str], each as the bytes that encode it. *)
Fixpoint characters (l : list ascii) : list (list ascii) :=
  match l with
  | [] => []
  | c :: l' =>
      match characters l' with
      | (d :: ds) :: r =>
          if is_continuation d then (c :: d :: ds) :: r
          else [c] :: (d :: ds) :: r
      | r => [c] :: r
      end
  end.

(** The code point of a character; [-1] for bytes that encode none. *)
Definition code_point (ch : list ascii) : Z :=
  let low6 (c : Z) := Z.land c 0x3F in
  match List.map byte_of ch with
  | [a] => if a <? 0x80 then a else -1
  | [a; b] =>
      if (0xC0 <=? a) && (a <? 0xE0)
      then Z.lor (Z.shiftl (Z.land a 0x1F) 6) (low6 b)
      else -1
  | [a; b; c] =>
      if (0xE0 <=? a) && (a <? 0xF0)
      then Z.lor (Z.shiftl (Z.land a 0x0F) 12)
                 (Z.lor (Z.shiftl (low6 b) 6) (low6 c))
      else -1
  | [a; b; c; d] =>
      if (0xF0 <=? a) && (a <? 0xF8)
      then Z.lor (Z.shiftl (Z.land a 0x07) 18)
                 (Z.lor (Z.shiftl (low6 b) 12)
                        (Z.lor (Z.shiftl (low6 c) 6) (low6 d)))
      else -1
  | _ => -1
  end.

(** The blanks [int] skips around the digits: tab to carriage return, and
    the space. *)
Definition is_space (c : ascii) : bool :=
  let n := nat_of_ascii c in
  ((9 <=? n) && (n <=? 13) || (n =? 32))%nat.

(** The characters from 127 on that [str.isspace] takes as blanks. *)
Definition unicode_space (cp : Z) : bool :=
  existsb (Z.eqb cp)
          [0x85; 0xA0; 0x1680; 0x2028; 0x2029; 0x202F; 0x205F; 0x3000]
  || (0x2000 <=? cp) && (cp <=? 0x200A).

(** The zero of every run of ten decimal digits outside ASCII
    (Unicode 14.0, as in CPython 3.11). *)
Definition decimal_zeros : list Z :=
  [ 0x0660; 0x06F0; 0x07C0; 0x0966; 0x09E6; 0x0A66; 0x0AE6; 0x0B66;
    0x0BE6; 0x0C66; 0x0CE6; 0x0D66; 0x0DE6; 0x0E50; 0x0ED0; 0x0F20;
    0x1040; 0x1090; 0x17E0; 0x1810; 0x1946; 0x19D0; 0x1A80; 0x1A90;
    0x1B50; 0x1BB0; 0x1C40; 0x1C50; 0xA620; 0xA8D0; 0xA900; 0xA9D0;
    0xA9F0; 0xAA50; 0xABF0; 0xFF10; 0x104A0; 0x10D30; 0x11066;
    0x110F0; 0x11136; 0x111D0; 0x112F0; 0x11450; 0x114D0; 0x11650;
    0x116C0; 0x11730; 0x118E0; 0x11950; 0x11C50; 0x11D50; 0x11DA0;
    0x16A60; 0x16AC0; 0x16B50; 0x1D7CE; 0x1D7D8; 0x1D7E2; 0x1D7EC;
    0x1D7F6; 0x1E140; 0x1E2F0; 0x1E950; 0x1FBF0 ].

Definition unicode_decimal (cp : Z) : option Z :=
  match List.find (fun z => (z <=? cp) && (cp <=? z + 9)) decimal_zeros with
  | Some z => Some (cp - z)
  | None => None
  end.

(** What [int] reads in place of a character: a character below 127 as it
    is, a blank of Unicode as a space, a decimal digit of Unicode as the
    ASCII digit, and a question mark for anything else. *)
Definition to_ascii (ch : list ascii) : ascii :=
  let cp := code_point ch in
  if (0 <=? cp) && (cp <? 127) then ascii_of_nat (Z.to_nat cp)
  else if unicode_space cp then " "%char
  else match unicode_decimal cp with
       | Some d => ascii_of_nat (Z.to_nat (48 + d))
       | None => "?"%char
       end.

Fixpoint lstrip (l : list ascii) : list ascii :=
  match l with
  | c :: l' => if is_space c then lstrip l' else l
  | [] => []
  end.

Definition digit_of (c : ascii) : option Z :=
  let n := byte_of c in
  if (48 <=? n) && (n <=? 57) then Some (n - 48) else None.

(** The run of digits at the head of [l], single underscores allowed
    between two digits: its value, its number of digits, and what follows
    it. *)
Fixpoint scan_digits (value digits : Z) (after_underscore : bool)
    (l : list ascii) : option (Z * Z * list ascii) :=
  match l with
  | c :: l' =>
      if Ascii.eqb c "_"
      then if after_underscore then None
           else scan_digits value digits true l'
      else match digit_of c with
           | Some d => scan_digits (value * 10 + d) (digits + 1) false l'
           | None =>
               if after_underscore then None else Some (value, digits, l)
           end
  | [] => if after_underscore then None else Some (value, digits, [])
  end.

(** The default of [sys.get_int_max_str_digits()]. *)
Definition int_max_str_digits : Z := 4300.

Inductive int_reading : Type :=
| IntValue (z : Z)
| InvalidLiteral
| ExceedsLimit.

(** [int(s)] for a [str]: blanks, a sign, the digits, blanks. *)
Definition read_int (s : string) : int_reading :=
  let l := lstrip (List.map to_ascii (characters (list_ascii_of_string s))) in
  let '(negative, l) :=
    match l with
    | c :: l' =>
        if Ascii.eqb c "+" then (false, l')
        else if Ascii.eqb c "-" then (true, l')
        else (false, l)
    | [] => (false, l)
    end in
  match l with
  | c :: _ =>
      if Ascii.eqb c "_" then InvalidLiteral
      else match scan_digits 0 0 false l with
           | Some (value, digits, rest) =>
               if int_max_str_digits <? digits then ExceedsLimit
               else if digits =? 0 then InvalidLiteral
               else match lstrip rest with
                    | [] => IntValue (if negative then - value else value)
                    | _ :: _ => InvalidLiteral
                    end
           | None => InvalidLiteral
           end
  | [] => InvalidLiteral
  end.

Definition parse_int (s : string) : option Z :=
  match read_int s with
  | IntValue z => Some z
  | _ => None
  end.

(** [int(v)]; the messages are given up to their colon. *)
Definition py_int (v : pyval) : M Z :=
  match v with
  | PyInt z => mret z
  | PyStr s =>
      match read_int s with
      | IntValue z => mret z
      | InvalidLiteral =>
          raise (ValueError "invalid literal for int() with base 10")
      | ExceedsLimit =>
          raise (ValueError
                   "Exceeds the limit (4300 digits) for integer string conversion")
      end
  | _ => raise (TypeError "int() argument must be a string or a number")
  end.

(** [len(v)] *)
Definition py_len (v : pyval) : M Z :=
  match v with
  | PyList l => mret (Z.of_nat (List.length l))
  | PyStr s =>
      mret (Z.of_nat (List.length (characters (list_ascii_of_string s))))
  | _ => raise (TypeError "object has no len()")
  end.

(** The items of a list when all of them are [str]. *)
Fixpoint str_items (l : list pyval) : option (list string) :=
  match l with
  | [] => Some []
  | PyStr s :: l' => cons s <$> str_items l'
  | _ :: _ => None
  end.

(** [",".join(v)] *)
Definition py_join (v : pyval) : M string :=
  match v with
  | PyList l =>
      match str_items l with
      | Some ss => mret (String.concat "," ss)
      | None => raise (TypeError "sequence item: expected str instance")
      end
  | PyStr s =>
      mret (String.concat ","
              (List.map string_of_list_ascii
                        (characters (list_ascii_of_string s))))
  | _ => raise (TypeError "can only join an iterable")
  end.

(** [record[key]] *)
Definition getitem (record : gmap string pyval) (key : string) : M pyval :=
  match record !! key with
  | Some v => mret v
  | None => raise (KeyError key)
  end.

(** [assert b] *)
Definition py_assert (b : bool) : M unit :=
  if b then mret tt else raise AssertionError.

(** [range(start, stop, step)] as the list it iterates over; a zero step is
    a [ValueError]. *)
Definition range_length (start stop step : Z) : Z :=
  if 0 <? step
  then if start <? stop then (stop - start - 1) / step + 1 else 0
  else if stop <? start then (start - stop - 1) / (- step) + 1 else 0.

Definition py_range (start stop step : Z) : M (list Z) :=
  if step =? 0 then raise (ValueError "range() arg 3 must not be zero")
  else mret (List.map (fun i => start + Z.of_nat i * step)
                      (seq 0 (Z.to_nat (range_length start stop step)))).

(** ** Text files *)

Definition LF : ascii := "010"%char.
Definition CR : ascii := "013"%char.

(** The string ["\n"]. *)
Definition NL : string := String LF "".

(** A file opened for reading in text mode translates ["\r\n"] and ["\r"]
    to ["\n"] (universal newlines); written text is stored as it is (the
    line separator of the platform is taken to be ["\n"]). *)
Fixpoint universal_newlines (s : string) : string :=
  match s with
  | "" => ""
  | String c s' =>
      if Ascii.eqb c CR
      then String LF
             match s' with
             | String c' s'' =>
                 if Ascii.eqb c' LF
                 then universal_newlines s''
                 else universal_newlines s'
             | "" => ""
             end
      else String c (universal_newlines s')
  end.

(** The lines of a text, each with its terminator; the last one may lack
    it. *)
Fixpoint lines_of (s : string) : list string :=
  match s with
  | "" => []
  | String c s' =>
      if Ascii.eqb c LF then NL :: lines_of s'
      else match lines_of s' with
           | [] => [String c ""]
           | l :: ls => String c l :: ls
           end
  end.

(** A file object open for reading is the list of the lines not yet read. *)
Definition open_r (contents : string) : list string :=
  lines_of (universal_newlines contents).

(** [f.readline()]: the next line, or [""] at the end of the file. *)
Definition readline (f : list string) : string * list string :=
  match f with
  | [] => ("", [])
  | line :: f' => (line, f')
  end.

(** [line.startswith(prefixes)] with a tuple of prefixes. *)
Definition startswith (line : string) (prefixes : list string) : bool :=
  existsb (fun p => String.prefix p line) prefixes.

(** ** Removal of the per-batch header lines (lines 101 to 110) *)

Definition problems : list string :=
  [ "<?xml version"; "<!DOCTYPE PubmedArticleSet PUBLIC";
    "<PubmedArticleSet"; "</PubmedArticleSet" ].

Definition closing_tag : string := "</PubmedArticleSet>" +:+ NL.

(** [for i in range(n): out_file.write(f.readline())] *)
Fixpoint copy_head (n : nat) (f : list string) (out : string)
  : list string * string :=
  match n with
  | O => (f, out)
  | S n' =>
      let '(line, f') := readline f in
      copy_head n' f' (out +:+ line)
  end.

(** [for line in f: if not line.startswith(problems): out_file.write(line)] *)
Fixpoint copy_body (f : list string) (out : string) : string :=
  match f with
  | [] => out
  | line :: f' =>
      copy_body f' (if startswith line problems then out else out +:+ line)
  end.

(** From the contents of the batched file to the contents of the cleaned
    file. *)
Definition remove_header_lines (batched : string) : string :=
  let f := open_r batched in
  let out := "" in
  let '(f, out) := copy_head 10 f out in
  let out := copy_body f out in
  out +:+ closing_tag.

(** ** The files of get_clean_xml *)

(** [tempfile.NamedTemporaryFile(delete=False)], closed at once: an empty
    file that stays. *)
Definition create_batched : M unit := fun w =>
  Ok tt {| trace := trace w;
           file_batched := Some "";
           file_cleaned := file_cleaned w |}.

(** [open(file_batched, "w")] *)
Definition open_w_batched : M unit := create_batched.

(** [handle.write(data)] on the batched file, open in mode ["w"] or ["a"]. *)
Definition write_batched (data : string) : M unit := fun w =>
  Ok tt {| trace := trace w ++ [EvWrite data];
           file_batched := Some (default "" (file_batched w) +:+ data);
           file_cleaned := file_cleaned w |}.

Definition read_batched : M string := fun w =>
  match file_batched w with
  | Some s => Ok s w
  | None => Raise (OtherError "FileNotFoundError") w
  end.

Definition write_cleaned (s : string) : M unit := fun w =>
  Ok tt {| trace := trace w;
           file_batched := file_batched w;
           file_cleaned := Some s |}.

(** [os.unlink(file_batched)] *)
Definition unlink_batched : M unit := fun w =>
  Ok tt {| trace := trace w;
           file_batched := None;
           file_cleaned := file_cleaned w |}.

(** The object [Entrez.efetch] returns: a text stream, which can be read
    until it is closed. *)
Record handle : Type := {
  h_data : string;
  h_closed : bool
}.

Definition handle_read (h : handle) : M string :=
  if h_closed h
  then raise (ValueError "I/O operation on closed file.")
  else mret (h_data h).

Definition handle_close (h : handle) : handle :=
  {| h_data := h_data h; h_closed := true |}.

Fixpoint for_each {A S : Type} (body : S -> A -> M S) (l : list A) (s : S)
  : M S :=
  match l with
  | [] => mret s
  | x :: l' => s' ← body s x; for_each body l' s'
  end.

(** ** get_clean_xml *)

Section get_clean_xml.

(** The names bound in the module that runs the function, and the remote
    service. *)
Variable G : list string.
Variable Entrez : EntrezService.

(** The handler [except HTTPError as err] of lines 84 to 90.  Matching an
    exception against the clause first evaluates the name [HTTPError]. *)
Definition except_HTTPError (err : exn) (attempt : Z) : M unit :=
  load_name G "HTTPError" ;;
  match err with
  | HTTPError code =>
      if (500 <=? code) && (code <=? 599)
      then
        print (MsgServerError err) ;;
        print (MsgAttempt attempt) ;;
        load_name G "time" ;;
        log (EvSleep 15)
      else raise err
  | _ => raise err
  end.

Section window.

Variables (count batch_size : Z) (webenv query_key apikey : pyval).

(** [while attempt < 3] of lines 77 to 90; the local variable
    [fetch_handle] is bound when an [efetch] call returns.  [fuel] bounds
    the iterations. *)
Fixpoint attempts (fuel : nat) (start attempt : Z)
    (fetch_handle : option handle) : M (option handle) :=
  if attempt <? 3 then
    match fuel with
    | O => mret fetch_handle
    | S fuel' =>
        let attempt := attempt + 1 in
        log (EvFetch start batch_size webenv query_key apikey) ;;
        match efetch Entrez start batch_size webenv query_key apikey attempt with
        | Returns data =>
            attempts fuel' start attempt
                     (Some {| h_data := data; h_closed := false |})
        | Raises err =>
            except_HTTPError err attempt ;;
            attempts fuel' start attempt fetch_handle
        end
    end
  else mret fetch_handle.

(** Body of [for start in range(0, count, batch_size)], lines 74 to 93. *)
Definition download_window (fetch_handle : option handle) (start : Z)
  : M (option handle) :=
  let end_ := Z.min count (start + batch_size) in
  print (MsgDownload (start + 1) end_) ;;
  fetch_handle ← attempts 3 start 0 fetch_handle;
  h ← match fetch_handle with
      | Some h => mret h
      | None => raise (UnboundLocalError "fetch_handle")
      end;
  data ← handle_read h;
  write_batched data ;;
  mret (Some (handle_close h)).

(** Lines 72 to 93. *)
Definition download_batches : M unit :=
  open_w_batched ;;
  starts ← py_range 0 count batch_size;
  for_each download_window starts None ;;
  mret tt.

End window.

Definition search_term_comment (search_term : string) : string :=
  NL +:+ "<!--Generated by PubMed search term: " +:+ search_term
     +:+ "-->" +:+ NL.

(** Lines 49 to 69: the searches and the post to the history server. *)
Definition open_session (search_term : string) : M (Z * pyval * pyval) :=
  log (EvSearch search_term 50000 true) ;;
  record ← call (esearch Entrez search_term 50000 true);
  c ← getitem record "Count";
  count ← py_int c;
  webenv ← getitem record "WebEnv";
  query_key ← getitem record "QueryKey";
  log (EvSearch search_term count false) ;;
  record ← call (esearch Entrez search_term count false);
  id_list ← getitem record "IdList";
  n ← py_len id_list;
  py_assert (count =? n) ;;
  print (MsgRecords count search_term) ;;
  ids ← py_join id_list;
  log (EvPost ids) ;;
  search_results ← call (epost Entrez ids);
  webenv ← getitem search_results "WebEnv";
  query_key ← getitem search_results "QueryKey";
  mret (count, webenv, query_key).

Definition get_clean_xml_in (search_term pubmed_user : string)
    (pubmed_key : pyval) (batch_size : Z) : M unit :=
  create_batched ;;
  let apikey := pubmed_key in
  '(count, webenv, query_key) ← open_session search_term;
  download_batches count batch_size webenv query_key apikey ;;
  write_batched (search_term_comment search_term) ;;
  batched ← read_batched;
  write_cleaned (remove_header_lines batched) ;;
  unlink_batched.

End get_clean_xml.

(** The function in the module as it is written. *)
Definition get_clean_xml : EntrezService -> string -> string -> pyval -> Z -> M unit :=
  get_clean_xml_in module_globals.

Definition initial_world : world :=
  {| trace := []; file_batched := None; file_cleaned := None |}.

(** ** create_corpus *)

Definition path_PubmedArticle := [ET.Descendant "PubmedArticle"].

(** Lines 167 to 171: the list built by appending the article of each
    element found. *)
Definition corpus_of_root (root : ET.Element) : list Article :=
  fold_left (fun corpus_articles article =>
               (corpus_articles ++ [article_from_pubmed article])%list)
            (ET.findall root path_PubmedArticle) [].

Definition read_cleaned : M string := fun w =>
  match file_cleaned w with
  | Some s => Ok (universal_newlines s) w
  | None => Raise (OtherError "FileNotFoundError") w
  end.

Section create_corpus.

(** The XML parser behind [ET.parse]: the root of the tree, or the error it
    raises. *)
Variable parse : string -> reply ET.Element.

Definition create_corpus : M (list Article) :=
  infile ← read_cleaned;
  root ← call (parse infile);
  mret (corpus_of_root root).

End create_corpus.

(** ** get_pubmed_summary *)

(** The local variables of the loop of lines 179 to 184, with what was
    printed so far. *)
Record summary_state : Type := {
  data : gmap Z (gmap string pyval);
  record_id : Z;
  printed : list pyval
}.

(** How the function ends: the value returned or the exception raised,
    what was printed, and whether [handle.close()] was reached. *)
Record summary_run : Type := {
  outcome : pyval + exn;
  output : list pyval;
  closed : bool
}.

(** One iteration; [record.update] lets the entries of the record win. *)
Definition summary_step (st : summary_state) (record : gmap string pyval)
  : summary_state + exn * summary_state :=
  let slot := default ∅ (data st !! record_id st) in
  let data' := <[record_id st := record ∪ slot]> (data st) in
  let record_id' := record_id st + 1 in
  match record !! "Title" with
  | Some title =>
      inl {| data := data'; record_id := record_id';
             printed := (printed st ++ [title])%list |}
  | None =>
      inr (KeyError "Title",
           {| data := data'; record_id := record_id';
              printed := printed st |})
  end.

Fixpoint summary_loop (st : summary_state)
    (records : list (gmap string pyval))
  : summary_state + exn * summary_state :=
  match records with
  | [] => inl st
  | record :: records' =>
      match summary_step st record with
      | inl st' => summary_loop st' records'
      | inr stop => inr stop
      end
  end.

Definition summary_start : summary_state :=
  {| data := ∅; record_id := 0; printed := [] |}.

(** The function, given what [Entrez.esummary] followed by [Entrez.parse]
    yields.  It has no return statement. *)
Definition get_pubmed_summary (records : reply (list (gmap string pyval)))
  : summary_run :=
  match records with
  | Raises e => {| outcome := inr e; output := []; closed := false |}
  | Returns records =>
      match summary_loop summary_start records with
      | inl st =>
          {| outcome := inl PyNone; output := printed st; closed := true |}
      | inr (e, st) =>
          {| outcome := inr e; output := printed st; closed := false |}
      end
  end.

(** * Terms of the statements *)

(** The identifier elements of each scheme, in document order, and the text
    of the last one of a list ([None] for an empty list). *)
Definition doi_elements (root : ET.Element) : list ET.Element :=
  List.filter (in_attrib_values "doi") (ET.findall root path_ArticleId).

Definition pubmed_elements (root : ET.Element) : list ET.Element :=
  List.filter (in_attrib_values "pubmed") (ET.findall root path_ArticleId).

Definition last_text (l : list ET.Element) : pyval :=
  match last l with
  | Some e => of_text (ET.text e)
  | None => PyNone
  end.

(** The dictionary after the identifier scan (lines 135 to 142). *)
Definition scanned (root : ET.Element) : gmap string pyval :=
  fold_left scan_id (ET.findall root path_ArticleId) ∅.

(** An article whose DOI identifier element is empty, next to a PubMed
    identifier: [<ArticleId IdType="doi"/>] and
    [<ArticleId IdType="pubmed">999</ArticleId>]. *)
Definition empty_doi_article : ET.Element :=
  ET.Elem "PubmedArticle" [] None
    [ ET.Elem "ArticleId" [("IdType", "doi")] None [] None;
      ET.Elem "ArticleId" [("IdType", "pubmed")] (Some "999") [] None ]
    None.

Definition article_without_year : ET.Element :=
  ET.Elem "PubmedArticle" [] None [] None.

Definition article_with_year : ET.Element :=
  ET.Elem "PubmedArticle" [] None
    [ ET.Elem "JournalIssue" [] None
        [ ET.Elem "PubDate" [] None
            [ ET.Elem "Year" [] (Some "2020") [] None ] None ] None ]
    None.

Definition text_only_abstract : ET.Element :=
  ET.Elem "Abstract" [] (Some "Plain text, no markup.") [] None.

Definition article_text_only_abstract : ET.Element :=
  ET.Elem "PubmedArticle" [] None [text_only_abstract] None.

(** Concatenation of the lines written one after the other. *)
Definition cat (ls : list string) : string := fold_right String.append "" ls.

(** A line that is kept by the filter of line 108. *)
Definition kept (line : string) : bool := negb (startswith line problems).

Definition comment_open : string := "<!--Generated by PubMed search term: ".

(** A complete line: no carriage return, and one line feed, at the end. *)
Fixpoint complete_line (l : string) : bool :=
  match l with
  | "" => false
  | String c l' =>
      if Ascii.eqb c LF then String.eqb l' ""
      else negb (Ascii.eqb c CR) && complete_line l'
  end.

Fixpoint no_cr (s : string) : bool :=
  match s with
  | "" => true
  | String c s' => negb (Ascii.eqb c CR) && no_cr s'
  end.

(** The text is empty or its last character is a line feed. *)
Fixpoint terminated (t : string) : bool :=
  match t with
  | "" => true
  | String c t' =>
      match t' with
      | "" => Ascii.eqb c LF
      | String _ _ => terminated t'
      end
  end.

Definition sample_stream : string :=
  cat [ "<?xml version=1.0 ?>" +:+ NL;
        "<!DOCTYPE PubmedArticleSet PUBLIC>" +:+ NL;
        "<PubmedArticleSet>" +:+ NL;
        "<PubmedArticle>" +:+ NL;
        "<PMID>1</PMID>" +:+ NL;
        "<Article>" +:+ NL;
        "<ArticleTitle>One</ArticleTitle>" +:+ NL;
        "</Article>" +:+ NL;
        "</PubmedArticle>" +:+ NL;
        NL;
        "</PubmedArticleSet>" +:+ NL;
        "<?xml version=1.0 ?>" +:+ NL;
        "<!DOCTYPE PubmedArticleSet PUBLIC>" +:+ NL;
        "<PubmedArticleSet>" +:+ NL;
        "<PubmedArticle><PMID>2</PMID></PubmedArticle>" +:+ NL;
        "</PubmedArticleSet>" +:+ NL;
        "<!--Generated by PubMed search term: crispr-->" ].

(** The world after some more actions. *)
Definition add_events (w : world) (evs : list event) : world :=
  {| trace := trace w ++ evs;
     file_batched := file_batched w;
     file_cleaned := file_cleaned w |}.

Definition returns {A} (r : reply A) : bool :=
  match r with
  | Returns _ => true
  | Raises _ => false
  end.

Section download_terms.

Variable srv : EntrezService.
Variables (count bs : Z) (we qk ak : pyval).

Definition fetch_ev (start : Z) : event := EvFetch start bs we qk ak.

(** What is written for a window: the text of the third reply. *)
Definition data3 (start : Z) : string :=
  match efetch srv start bs we qk ak 3 with
  | Returns d => d
  | Raises _ => ""
  end.

(** All three calls for the window return. *)
Definition window_ok (start : Z) : bool :=
  returns (efetch srv start bs we qk ak 1)
  && returns (efetch srv start bs we qk ak 2)
  && returns (efetch srv start bs we qk ak 3).

Definition print_ev (start : Z) : event :=
  EvPrint (MsgDownload (start + 1) (Z.min count (start + bs))).

Definition window_events (start : Z) : list event :=
  [ print_ev start; fetch_ev start; fetch_ev start; fetch_ev start;
    EvWrite (data3 start) ].

(** The world after the windows of [l] were downloaded into a batched file
    that held [c]. *)
Definition after_windows (w : world) (c : string) (l : list Z) : world :=
  {| trace := trace w ++ List.flat_map window_events l;
     file_batched := Some (c +:+ cat (List.map data3 l));
     file_cleaned := file_cleaned w |}.

(** The starts that [range(0, count, batch_size)] yields. *)
Definition window_starts : list Z :=
  List.map (fun i => Z.of_nat i * bs)
           (seq 0 (Z.to_nat (range_length 0 count bs))).

End download_terms.

(** The world in which the batched file was opened for writing. *)
Definition opened (w : world) : world :=
  {| trace := trace w; file_batched := Some ""; file_cleaned := file_cleaned w |}.

(** A service whose every call to [efetch] raises a 503 error. *)
Definition always_503 : EntrezService :=
  {| esearch := fun _ _ _ => Raises (OtherError "unused");
     epost := fun _ => Raises (OtherError "unused");
     efetch := fun _ _ _ _ _ _ => Raises (HTTPError 503) |}.

(** A service whose calls all return; the text of a batch names its
    start. *)
Definition batch_text (start : Z) : string :=
  if start =? 0 then "<batch-0/>" +:+ NL
  else if start =? 2 then "<batch-2/>" +:+ NL
  else "<batch-other/>" +:+ NL.

Definition sample_record : gmap string pyval :=
  <["Count" := PyStr "5"]>
    (<["WebEnv" := PyStr "W"]>
       (<["QueryKey" := PyStr "1"]>
          (<["IdList" := PyList [PyStr "11"; PyStr "12"; PyStr "13";
                                 PyStr "14"; PyStr "15"]]> ∅))).

Definition steady_service : EntrezService :=
  {| esearch := fun _ _ _ => Returns sample_record;
     epost := fun _ => Returns sample_record;
     efetch := fun start _ _ _ _ _ => Returns (batch_text start) |}.

(** The actions only the handler's retry branch performs. *)
Definition is_retry_event (ev : event) : bool :=
  match ev with
  | EvSleep _ => true
  | EvPrint (MsgServerError _) => true
  | EvPrint (MsgAttempt _) => true
  | _ => false
  end.

(** A service whose first call for a window raises a 404 error. *)
Definition not_found_service : EntrezService :=
  {| esearch := fun _ _ _ => Returns sample_record;
     epost := fun _ => Returns sample_record;
     efetch := fun _ _ _ _ _ attempt =>
                 if attempt =? 1 then Raises (HTTPError 404)
                 else Returns "<later/>" |}.

(** A service whose first call for a window raises a 503 error and whose
    later calls would return. *)
Definition one_503_service : EntrezService :=
  {| esearch := fun _ _ _ => Returns sample_record;
     epost := fun _ => Returns sample_record;
     efetch := fun _ _ _ _ _ attempt =>
                 if attempt =? 1 then Raises (HTTPError 503)
                 else Returns "<later/>" |}.

(** A service reporting zero results: a count of 0, an empty identifier
    list, and a session token all the same. *)
Definition empty_record : gmap string pyval :=
  <["Count" := PyStr "0"]>
    (<["WebEnv" := PyStr "W"]>
       (<["QueryKey" := PyStr "1"]> (<["IdList" := PyList []]> ∅))).

Definition empty_service : EntrezService :=
  {| esearch := fun _ _ _ => Returns empty_record;
     epost := fun _ => Returns empty_record;
     efetch := fun _ _ _ _ _ _ => Raises (OtherError "not called") |}.

(** A service whose count-only search reports 5 results and whose second
    search lists 2 identifiers. *)
Definition short_list_record : gmap string pyval :=
  <["Count" := PyStr "5"]> (<["IdList" := PyList [PyStr "11"; PyStr "12"]]> ∅).

Definition mismatch_service : EntrezService :=
  {| esearch := fun _ _ usehistory =>
                  if usehistory then Returns sample_record
                  else Returns short_list_record;
     epost := fun _ => Returns sample_record;
     efetch := fun start _ _ _ _ _ => Returns (batch_text start) |}.

Fixpoint no_line_break (s : string) : bool :=
  match s with
  | "" => true
  | String c s' =>
      negb (Ascii.eqb c LF) && negb (Ascii.eqb c CR) && no_line_break s'
  end.

(** The comment without the newline written before it. *)
Definition comment_line (search_term : string) : string :=
  comment_open +:+ search_term +:+ "-->" +:+ NL.

(** A request for a window. *)
Definition is_fetch (ev : event) : bool :=
  match ev with
  | EvFetch _ _ _ _ _ => true
  | _ => false
  end.

(** A request that asks for [bs] records with the key [key] in a session
    that a post to the history server opened. *)
Definition fetch_of_session (srv : EntrezService) (bs : Z) (key : pyval)
    (ev : event) : Prop :=
  match ev with
  | EvFetch _ retmax webenv query_key api_key =>
      retmax = bs /\ api_key = key /\
      exists (ids : string) (posted : gmap string pyval),
        epost srv ids = Returns posted /\
        posted !! "WebEnv" = Some webenv /\
        posted !! "QueryKey" = Some query_key
  | _ => True
  end.

(** The cleaned file is as it was, and the batched file, if it was there,
    still is. *)
Definition batched_kept (w w' : world) : Prop :=
  file_cleaned w' = file_cleaned w /\
  (is_Some (file_batched w) -> is_Some (file_batched w')).

(** Whatever the world and the outcome, the computation adds only events
    that satisfy [P], and relates the worlds before and after by [R]. *)
Definition obeys {A} (P : event -> Prop) (R : world -> world -> Prop)
    (m : M A) : Prop :=
  forall w : world,
    (exists evs : list event,
       trace (final_world (m w)) = (trace w ++ evs)%list /\ Forall P evs) /\
    R w (final_world (m w)).

(** Replies of a service that let the session be set up: a count that
    agrees with the identifier list, and the tokens [webenv] and
    [query_key] in the reply to the post of [ids]. *)
Definition session_replies (srv : EntrezService) (search_term : string)
    (count : Z) (ids : string) (webenv query_key : pyval) : Prop :=
  exists (record : gmap string pyval) (s : string) (webenv0 query_key0 : pyval)
         (record2 : gmap string pyval) (id_list : list pyval)
         (ss : list string) (posted : gmap string pyval),
    esearch srv search_term 50000 true = Returns record /\
    record !! "Count" = Some (PyStr s) /\
    parse_int s = Some count /\
    record !! "WebEnv" = Some webenv0 /\
    record !! "QueryKey" = Some query_key0 /\
    esearch srv search_term count false = Returns record2 /\
    record2 !! "IdList" = Some (PyList id_list) /\
    count = Z.of_nat (List.length id_list) /\
    str_items id_list = Some ss /\
    ids = String.concat "," ss /\
    epost srv ids = Returns posted /\
    posted !! "WebEnv" = Some webenv /\
    posted !! "QueryKey" = Some query_key.

(** What setting up the session does. *)
Definition session_events (search_term : string) (count : Z) (ids : string)
  : list event :=
  [ EvSearch search_term 50000 true;
    EvSearch search_term count false;
    EvPrint (MsgRecords count search_term);
    EvPost ids ].

(** What is printed for a record that has a title. *)
Definition title_of (record : gmap string pyval) : pyval :=
  default PyNone (record !! "Title").

(** A document with two articles directly below the root, and a parser
    that answers with it. *)
Definition two_articles : ET.Element :=
  ET.Elem "PubmedArticleSet" [] None
    [ ET.Elem "PubmedArticle" [] None
        [ET.Elem "ArticleId" [("IdType", "pubmed")] (Some "1") [] None] None;
      ET.Elem "PubmedArticle" [] None
        [ET.Elem "ArticleId" [("IdType", "pubmed")] (Some "2") [] None] None ]
    None.

Definition parse_two_articles (contents : string) : reply ET.Element :=
  Returns two_articles.

Definition cleaned_world : world :=
  {| trace := []; file_batched := None; file_cleaned := Some "<doc/>" |}.

Definition titled (t : string) : gmap string pyval :=
  <["Title" := PyStr t]> (<["Id" := PyStr "7"]> ∅).

Definition untitled : gmap string pyval := <["Id" := PyStr "8"]> ∅.

(** The header removal as the specification words it, to be compared with
    [remove_header_lines]: the lines of the raw stream are its pieces up to
    and with each line feed; a line is an artifact when it starts with the
    XML declaration opening, the doctype declaration opening, the root
    opening tag or the root closing tag; the first ten lines are copied as
    they are, each later line is dropped if and only if it is an artifact,
    and one closing tag is appended. *)
Definition artifact (line : string) : bool :=
  String.prefix "<?xml version" line
  || String.prefix "<!DOCTYPE PubmedArticleSet PUBLIC" line
  || String.prefix "<PubmedArticleSet" line
  || String.prefix "</PubmedArticleSet" line.

Definition normalized_as_specified (raw : string) : string :=
  let ls := lines_of raw in
  cat (firstn 10 ls
       ++ List.filter (fun line => negb (artifact line)) (skipn 10 ls)
       ++ ["</PubmedArticleSet>" +:+ NL]).

(** A one-line stream that ends with a carriage return and a line feed. *)
Definition crlf_stream : string := String "a" (String CR (String LF "")).

(** Ten empty lines, and a search term with a line break whose second line
    starts like the closing tag. *)
Definition ten_empty_lines : string := cat (repeat NL 10).

Definition two_line_term : string := "t" +:+ NL +:+ "</PubmedArticleSet x".

(** A service whose calls for the window that starts at 2 raise a 503
    error. *)
Definition stops_at_2_service : EntrezService :=
  {| esearch := fun _ _ _ => Returns sample_record;
     epost := fun _ => Returns sample_record;
     efetch := fun start _ _ _ _ _ =>
                 if start =? 2 then Raises (HTTPError 503)
                 else Returns (batch_text start) |}.

(** An article whose author list holds an author with a nested author list
    standing before the author's own surname. *)
Definition nested_author_lists : ET.Element :=
  ET.Elem "PubmedArticle" [] None
    [ET.Elem "AuthorList" [] None
       [ET.Elem "Author" [] None
          [ET.Elem "AuthorList" [] None
             [ET.Elem "Author" [] None
                [ET.Elem "LastName" [] (Some "Inner") [] None] None] None;
           ET.Elem "LastName" [] (Some "Outer") [] None] None] None] None.

(** An article with two Abstract elements: the first holds text only, the
    second has a child. *)
Definition two_abstracts : ET.Element :=
  ET.Elem "PubmedArticle" [] None
    [ET.Elem "Abstract" [] (Some "first") [] None;
     ET.Elem "Abstract" [] None
       [ET.Elem "AbstractText" [] (Some "second") [] None] None] None.

(** A request for the window that starts at [start]. *)
Definition is_fetch_of (start : Z) (ev : event) : bool :=
  match ev with
  | EvFetch retstart _ _ _ _ => retstart =? start
  | _ => false
  end.

(** * Properties of the builtins *)

Lemma parse_int_read (s : string) (z : Z) :
  parse_int s = Some z -> read_int s = IntValue z.
Proof. unfold parse_int. destruct (read_int s); congruence. Qed.

(** [int] on text: blanks around the digits, a sign, single underscores
    between digits; the separators from 28 to 31 are no blanks for it; a
    no-break space and the Arabic-Indic digit three of a string outside
    ASCII are read as a space and as 3. *)
Example int_of_text :
  List.map parse_int
    [ " 12 "; "-7"; "+7"; "1_000"; "1__0"; "_1"; "1_"; "- 1"; "";
      String (ascii_of_nat 28) "0";
      String (ascii_of_nat 194) (String (ascii_of_nat 160) "12");
      String (ascii_of_nat 217) (String (ascii_of_nat 163) "") ]
  = [ Some 12; Some (-7); Some 7; Some 1000; None; None; None; None; None;
      None; Some 12; Some 3 ].
Proof. by vm_compute. Qed.

(** * Properties of article_from_pubmed *)

Lemma last_filter_cons {A} (P : A -> bool) (x : A) (l : list A) :
  last (List.filter P (x :: l)) =
  match last (List.filter P l) with
  | Some y => Some y
  | None => if P x then Some x else None
  end.
Proof.
  simpl. destruct (P x); [| by destruct (last (List.filter P l))].
  destruct (List.filter P l) as [|y l'] eqn:E; [done |].
  change (last (x :: y :: l')) with (last (y :: l')).
  destruct (last (y :: l')) eqn:E'; [done |].
  by apply last_None in E'.
Qed.

Lemma last_filter_None {A} (P : A -> bool) (l : list A) :
  last (List.filter P l) = None <-> List.filter P l = [].
Proof. apply last_None. Qed.

Lemma scan_ids_doi (ids : list ET.Element) (m : gmap string pyval) :
  fold_left scan_id ids m !! "doi" =
  match last (List.filter (in_attrib_values "doi") ids) with
  | Some e => Some (of_text (ET.text e))
  | None => m !! "doi"
  end.
Proof.
  revert m. induction ids as [|x l IH]; intros m; [done |].
  rewrite last_filter_cons. cbn [fold_left]. rewrite IH.
  destruct (last (List.filter (in_attrib_values "doi") l)); [done |].
  unfold scan_id.
  destruct (in_attrib_values "doi" x), (in_attrib_values "pubmed" x);
    by simplify_map_eq.
Qed.

Lemma scan_ids_pmid (ids : list ET.Element) (m : gmap string pyval) :
  fold_left scan_id ids m !! "pmid" =
  match last (List.filter (in_attrib_values "pubmed") ids) with
  | Some e => Some (of_text (ET.text e))
  | None => m !! "pmid"
  end.
Proof.
  revert m. induction ids as [|x l IH]; intros m; [done |].
  rewrite last_filter_cons. cbn [fold_left]. rewrite IH.
  destruct (last (List.filter (in_attrib_values "pubmed") l)); [done |].
  unfold scan_id.
  destruct (in_attrib_values "doi" x), (in_attrib_values "pubmed" x);
    by simplify_map_eq.
Qed.

Lemma scan_ids_other (ids : list ET.Element) (m : gmap string pyval) k :
  k <> "doi" -> k <> "pmid" -> fold_left scan_id ids m !! k = m !! k.
Proof.
  intros Hd Hp. revert m. induction ids as [|x l IH]; intros m; [done |].
  cbn [fold_left]. rewrite IH. unfold scan_id.
  destruct (in_attrib_values "doi" x), (in_attrib_values "pubmed" x);
    by simplify_map_eq.
Qed.

Lemma scanned_doi root :
  scanned root !! "doi" =
  (fun e => of_text (ET.text e)) <$> last (doi_elements root).
Proof.
  unfold scanned, doi_elements. rewrite scan_ids_doi.
  by destruct (last _).
Qed.

Lemma scanned_pmid root :
  scanned root !! "pmid" =
  (fun e => of_text (ET.text e)) <$> last (pubmed_elements root).
Proof.
  unfold scanned, pubmed_elements. rewrite scan_ids_pmid.
  by destruct (last _).
Qed.

Lemma scanned_my_id root : scanned root !! "my_id" = None.
Proof. unfold scanned. by rewrite scan_ids_other. Qed.

(** Keys written after the identifiers are resolved do not touch them. *)
Lemma article_fields_ids root k :
  k = "doi" \/ k = "pmid" \/ k = "my_id" ->
  article_fields root !! k = resolve_my_id (scanned root) !! k.
Proof.
  intros Hk. unfold article_fields. fold (scanned root).
  destruct (ET.find root path_Abstract) as [a|]; [destruct (ET.truthy a) |];
    destruct Hk as [-> | [-> | ->]]; by simplify_map_eq.
Qed.

Lemma article_fields_year root :
  article_fields root !! "year" = Some (of_text (ET.findtext root path_Year)).
Proof.
  unfold article_fields.
  destruct (ET.find root path_Abstract) as [a|]; [destruct (ET.truthy a) |];
    by simplify_map_eq.
Qed.

Lemma article_fields_abstract root :
  article_fields root !! "abstract" =
  match ET.find root path_Abstract with
  | Some a => if ET.truthy a then Some (PyStr (ET.tostring_text a)) else None
  | None => None
  end.
Proof.
  unfold article_fields. fold (scanned root).
  assert (resolve_my_id (scanned root) !! "abstract" = None) as H.
  { unfold resolve_my_id, scanned.
    destruct (_ !! "doi"); [| destruct (_ !! "pmid")];
      simplify_map_eq; by rewrite scan_ids_other. }
  destruct (ET.find root path_Abstract) as [a|]; [destruct (ET.truthy a) |];
    by simplify_map_eq.
Qed.

Lemma resolve_my_id_keeps (m : gmap string pyval) k :
  k <> "my_id" -> resolve_my_id m !! k = m !! k.
Proof.
  intros Hk. unfold resolve_my_id.
  destruct (m !! "doi"); [| destruct (m !! "pmid")]; by simplify_map_eq.
Qed.

Lemma resolve_my_id_sets (m : gmap string pyval) :
  m !! "my_id" = None ->
  resolve_my_id m !! "my_id" =
  match m !! "doi" with
  | Some d => Some d
  | None => m !! "pmid"
  end.
Proof.
  intros Hm. unfold resolve_my_id.
  destruct (m !! "doi"); [| destruct (m !! "pmid")]; by simplify_map_eq.
Qed.

Lemma article_doi root :
  doi (article_from_pubmed root) = last_text (doi_elements root).
Proof.
  unfold article_from_pubmed, Article_init, last_text; cbn [doi].
  rewrite article_fields_ids by auto.
  rewrite resolve_my_id_keeps by done. rewrite scanned_doi.
  by destruct (last (doi_elements root)).
Qed.

Lemma article_pmid root :
  pmid (article_from_pubmed root) = last_text (pubmed_elements root).
Proof.
  unfold article_from_pubmed, Article_init, last_text; cbn [pmid].
  rewrite article_fields_ids by auto.
  rewrite resolve_my_id_keeps by done. rewrite scanned_pmid.
  by destruct (last (pubmed_elements root)).
Qed.

Lemma article_my_id root :
  my_id (article_from_pubmed root) =
  match doi_elements root with
  | [] => last_text (pubmed_elements root)
  | _ :: _ => last_text (doi_elements root)
  end.
Proof.
  unfold article_from_pubmed, Article_init, last_text; cbn [my_id].
  rewrite article_fields_ids by auto.
  rewrite resolve_my_id_sets by apply scanned_my_id.
  rewrite scanned_doi, scanned_pmid.
  destruct (doi_elements root) as [|x l] eqn:E.
  - by destruct (last (pubmed_elements root)).
  - destruct (last (x :: l)) eqn:E'; [done |]. by apply last_None in E'.
Qed.

(** C3, counterexample: for an article with an empty DOI identifier element
    and the PubMed identifier 999, [pmid] is set and [my_id] is not, so
    "my_id is set if and only if doi or pmid is set" fails. *)
Lemma my_id_iff_fails :
  let a := article_from_pubmed empty_doi_article in
  ~ (my_id a <> PyNone <-> (doi a <> PyNone \/ pmid a <> PyNone)).
Proof.
  intros a [_ H].
  assert (my_id a <> PyNone) as Hid by (apply H; right; by vm_compute).
  by apply Hid.
Qed.

(** C3, as amended: [doi] and [pmid] are the texts of the last identifier
    element of their scheme; when a DOI-scheme element exists [my_id] is its
    value, else when a PubMed element exists [my_id] is that one's value,
    else [my_id] is absent.  Hence [my_id] is set if and only if [doi] is
    set, or no DOI-scheme element exists and [pmid] is set; and [my_id]
    equals [doi] when both are set. *)
Theorem my_id_precedence (root : ET.Element) :
  let a := article_from_pubmed root in
  doi a = last_text (doi_elements root) /\
  pmid a = last_text (pubmed_elements root) /\
  (doi_elements root <> [] -> my_id a = doi a) /\
  (doi_elements root = [] -> my_id a = pmid a) /\
  (doi_elements root = [] -> pubmed_elements root = [] -> my_id a = PyNone) /\
  (my_id a <> PyNone <->
   doi a <> PyNone \/ (doi_elements root = [] /\ pmid a <> PyNone)) /\
  (doi a <> PyNone -> pmid a <> PyNone -> my_id a = doi a).
Proof.
  intros a. subst a.
  rewrite article_doi, article_pmid, article_my_id.
  destruct (doi_elements root) as [|x l] eqn:E.
  - repeat split; try done; try tauto.
    intros _ ->. reflexivity.
  - repeat split; try done; try tauto.
    intros [H | [H _]]; [exact H | discriminate H].
Qed.

(** C4: the year of the returned article is what [findtext] gives, [None]
    or a string; it is never an integer, and in particular not 0 when the
    Year element is missing. *)
Theorem year_is_findtext (root : ET.Element) :
  year (article_from_pubmed root) = of_text (ET.findtext root path_Year) /\
  forall z : Z, year (article_from_pubmed root) <> PyInt z.
Proof.
  assert (year (article_from_pubmed root)
          = of_text (ET.findtext root path_Year)) as H.
  { unfold article_from_pubmed, Article_init; cbn [year].
    by rewrite article_fields_year. }
  split; [done |]. intros z. rewrite H.
  by destruct (ET.findtext root path_Year).
Qed.

Example year_missing : year (article_from_pubmed article_without_year) = PyNone.
Proof. by vm_compute. Qed.

Example year_present :
  year (article_from_pubmed article_with_year) = PyStr "2020".
Proof. by vm_compute. Qed.

(** C10: when the located Abstract element has no child element the
    article's abstract is absent, whatever text the element carries; the
    abstract is present only when an Abstract element is found and has at
    least one child. *)
Theorem abstract_needs_children (root : ET.Element) :
  let a := article_from_pubmed root in
  (forall e, ET.find root path_Abstract = Some e ->
             ET.children e = [] -> abstract a = PyNone) /\
  (abstract a <> PyNone ->
   exists e, ET.find root path_Abstract = Some e /\ ET.children e <> []).
Proof.
  intros a. subst a.
  unfold article_from_pubmed, Article_init; cbn [abstract].
  rewrite article_fields_abstract. split.
  - intros e -> He. unfold ET.truthy. by rewrite He.
  - destruct (ET.find root path_Abstract) as [e|]; [| done].
    unfold ET.truthy. destruct (ET.children e) eqn:He; [done |].
    intros _. exists e. by rewrite He.
Qed.

Lemma abstract_needs_children_witness :
  abstract (article_from_pubmed article_text_only_abstract) = PyNone.
Proof.
  apply (proj1 (abstract_needs_children article_text_only_abstract)
               text_only_abstract); reflexivity.
Defined.

(** * Properties of the header-line removal *)

Lemma append_cons (c : ascii) (s t : string) :
  String c s +:+ t = String c (s +:+ t).
Proof. reflexivity. Qed.

Lemma append_nil_l (s : string) : "" +:+ s = s.
Proof. reflexivity. Qed.

Lemma append_nil_r (s : string) : s +:+ "" = s.
Proof. induction s as [|c s IH]; [done |]. by rewrite append_cons, IH. Qed.

Lemma append_assoc (s1 s2 s3 : string) :
  (s1 +:+ s2) +:+ s3 = s1 +:+ (s2 +:+ s3).
Proof. induction s1 as [|c s1 IH]; [done |]. by rewrite !append_cons, IH. Qed.

Lemma cat_cons (x : string) (l : list string) : cat (x :: l) = x +:+ cat l.
Proof. reflexivity. Qed.

Lemma cat_app (l1 l2 : list string) : cat (l1 ++ l2) = cat l1 +:+ cat l2.
Proof.
  induction l1 as [|x l1 IH]; [done |].
  by rewrite <- app_comm_cons, !cat_cons, IH, append_assoc.
Qed.

Lemma copy_head_spec (n : nat) (f : list string) (out : string) :
  copy_head n f out = (skipn n f, out +:+ cat (firstn n f)).
Proof.
  revert f out. induction n as [|n IH]; intros f out.
  - cbn [copy_head skipn firstn cat fold_right]. by rewrite append_nil_r.
  - destruct f as [|line f]; cbn [copy_head readline].
    + rewrite IH, firstn_nil, skipn_nil. by rewrite !append_nil_r.
    + rewrite IH. cbn [skipn firstn]. by rewrite cat_cons, append_assoc.
Qed.

Lemma copy_body_spec (f : list string) (out : string) :
  copy_body f out = out +:+ cat (List.filter kept f).
Proof.
  revert out. induction f as [|line f IH]; intros out.
  - cbn [copy_body List.filter cat fold_right]. by rewrite append_nil_r.
  - cbn [copy_body List.filter]. rewrite IH. unfold kept at 2.
    destruct (startswith line problems); cbn [negb]; [done |].
    by rewrite cat_cons, append_assoc.
Qed.

Lemma remove_header_lines_spec (batched : string) :
  remove_header_lines batched =
  cat (firstn 10 (open_r batched)
       ++ List.filter kept (skipn 10 (open_r batched))
       ++ [closing_tag]).
Proof.
  unfold remove_header_lines. rewrite copy_head_spec, copy_body_spec.
  rewrite !cat_app, cat_cons. cbn [cat fold_right].
  by rewrite append_nil_l, append_nil_r, !append_assoc.
Qed.

Lemma comment_line_kept (rest : string) : kept (comment_open +:+ rest) = true.
Proof. reflexivity. Qed.

(** C7, counterexample: on the empty stream the second pass keeps the
    closing tag written by the first and adds another. *)
Lemma remove_header_lines_not_idempotent :
  remove_header_lines (remove_header_lines "") <> remove_header_lines "".
Proof. by vm_compute. Qed.

(** ** Lines of a text that ends with a newline *)

Lemma universal_newlines_cons (c : ascii) (s : string) :
  universal_newlines (String c s) =
  if Ascii.eqb c CR
  then String LF
         match s with
         | String c' s'' =>
             if Ascii.eqb c' LF
             then universal_newlines s''
             else universal_newlines s
         | "" => ""
         end
  else String c (universal_newlines s).
Proof. reflexivity. Qed.

Lemma terminated_cons (c : ascii) (t : string) :
  terminated t = true -> t <> "" \/ c = LF -> terminated (String c t) = true.
Proof.
  intros Ht Hc. destruct t as [|c' t']; [| exact Ht].
  destruct Hc as [Hc | ->]; [done | reflexivity].
Qed.

Lemma universal_newlines_nonempty (c : ascii) (s : string) :
  universal_newlines (String c s) <> "".
Proof.
  rewrite universal_newlines_cons. by destruct (Ascii.eqb c CR).
Qed.

Lemma universal_newlines_no_cr_aux (s : string) :
  no_cr (universal_newlines s) = true /\
  forall c, no_cr (universal_newlines (String c s)) = true.
Proof.
  induction s as [|c' s [IH1 IH2]].
  - split; [done |]. intros c. rewrite universal_newlines_cons.
    destruct (Ascii.eqb c CR) eqn:E; [done |].
    cbn [universal_newlines no_cr]. by rewrite E.
  - split; [apply IH2 |]. intros c. rewrite universal_newlines_cons.
    destruct (Ascii.eqb c CR) eqn:E.
    + cbn [no_cr]. destruct (Ascii.eqb c' LF); [exact IH1 | apply IH2].
    + cbn [no_cr]. rewrite E. apply IH2.
Qed.

Lemma universal_newlines_no_cr (s : string) :
  no_cr (universal_newlines s) = true.
Proof. apply universal_newlines_no_cr_aux. Qed.

Lemma universal_newlines_terminated_aux (t : string) :
  terminated (universal_newlines (t +:+ NL)) = true /\
  forall c, terminated (universal_newlines (String c t +:+ NL)) = true.
Proof.
  induction t as [|c' t [IH1 IH2]].
  - split; [done |]. intros c.
    rewrite append_cons, append_nil_l, universal_newlines_cons.
    by destruct (Ascii.eqb c CR).
  - split; [apply IH2 |]. intros c.
    rewrite append_cons, universal_newlines_cons.
    destruct (Ascii.eqb c CR).
    + rewrite append_cons. apply terminated_cons; [| by right].
      destruct (Ascii.eqb c' LF); [exact IH1 |].
      rewrite <- append_cons. apply IH2.
    + apply terminated_cons; [apply IH2 |]. left.
      rewrite append_cons. apply universal_newlines_nonempty.
Qed.

Lemma universal_newlines_terminated (t : string) :
  terminated (universal_newlines (t +:+ NL)) = true.
Proof. apply universal_newlines_terminated_aux. Qed.

Lemma lines_of_cons (c : ascii) (s : string) :
  lines_of (String c s) =
  if Ascii.eqb c LF then NL :: lines_of s
  else match lines_of s with
       | [] => [String c ""]
       | l :: ls => String c l :: ls
       end.
Proof. reflexivity. Qed.

Lemma lines_of_nil (t : string) : lines_of t = [] -> t = "".
Proof.
  destruct t as [|c t]; [done |]. rewrite lines_of_cons.
  destruct (Ascii.eqb c LF); [done |]. by destruct (lines_of t).
Qed.

Lemma lines_complete (t : string) :
  no_cr t = true -> terminated t = true ->
  forallb complete_line (lines_of t) = true.
Proof.
  induction t as [|c t IH]; [done |]. intros Hcr Ht.
  cbn [no_cr] in Hcr. apply andb_true_iff in Hcr as [Hc Hcr].
  assert (terminated t = true) as Ht'.
  { destruct t; [done | exact Ht]. }
  specialize (IH Hcr Ht'). rewrite lines_of_cons.
  destruct (Ascii.eqb c LF) eqn:E.
  - cbn [forallb]. by rewrite IH.
  - destruct (lines_of t) as [|l ls] eqn:El.
    + apply lines_of_nil in El. subst t. cbn [terminated] in Ht. congruence.
    + cbn [forallb] in *. cbn [complete_line]. by rewrite E, Hc.
Qed.

Lemma complete_line_lines (l t : string) :
  complete_line l = true -> lines_of (l +:+ t) = l :: lines_of t.
Proof.
  induction l as [|c l IH]; [done |]. cbn [complete_line].
  rewrite append_cons, lines_of_cons. destruct (Ascii.eqb c LF) eqn:E.
  - intros Hl. apply String.eqb_eq in Hl. subst l.
    apply Ascii.eqb_eq in E. by subst c.
  - intros Hl. apply andb_true_iff in Hl as [_ Hl]. by rewrite IH.
Qed.

Lemma complete_line_newlines (l s : string) :
  complete_line l = true ->
  universal_newlines (l +:+ s) = l +:+ universal_newlines s.
Proof.
  induction l as [|c l IH]; [done |]. cbn [complete_line].
  rewrite !append_cons, universal_newlines_cons.
  destruct (Ascii.eqb c LF) eqn:E.
  - intros Hl. apply String.eqb_eq in Hl. subst l.
    apply Ascii.eqb_eq in E. by subst c.
  - intros Hl. apply andb_true_iff in Hl as [Hc Hl].
    apply negb_true_iff in Hc. by rewrite Hc, IH.
Qed.

Lemma open_r_cat (ls : list string) :
  forallb complete_line ls = true -> open_r (cat ls) = ls.
Proof.
  induction ls as [|l ls IH]; [done |]. cbn [forallb].
  intros H. apply andb_true_iff in H as [Hl Hls].
  unfold open_r in *. rewrite cat_cons, complete_line_newlines by done.
  rewrite complete_line_lines by done. by rewrite IH.
Qed.

Lemma open_r_complete (t : string) :
  forallb complete_line (open_r (t +:+ NL)) = true.
Proof.
  apply lines_complete;
    [apply universal_newlines_no_cr | apply universal_newlines_terminated].
Qed.

Lemma forallb_firstn {A} (P : A -> bool) (n : nat) (l : list A) :
  forallb P l = true -> forallb P (firstn n l) = true.
Proof.
  intros H. rewrite <- (firstn_skipn n l), forallb_app in H.
  by apply andb_true_iff in H as [H1 H2].
Qed.

Lemma forallb_skipn {A} (P : A -> bool) (n : nat) (l : list A) :
  forallb P l = true -> forallb P (skipn n l) = true.
Proof.
  intros H. rewrite <- (firstn_skipn n l), forallb_app in H.
  by apply andb_true_iff in H as [H1 H2].
Qed.

Lemma forallb_filter {A} (P Q : A -> bool) (l : list A) :
  forallb P l = true -> forallb P (List.filter Q l) = true.
Proof.
  rewrite !forallb_forall. intros H x Hx. apply H.
  by apply filter_In in Hx as [Hx _].
Qed.

Lemma filter_kept_twice (l : list string) :
  List.filter kept (List.filter kept l) = List.filter kept l.
Proof.
  induction l as [|x l IH]; [done |]. cbn [List.filter].
  destruct (kept x) eqn:E; [| exact IH].
  cbn [List.filter]. by rewrite E, IH.
Qed.

(** C7, as amended: on a stream of at least 10 lines that ends with a
    newline, removing the header lines a second time changes nothing. *)
Theorem remove_header_lines_idempotent (t : string) :
  (10 <= List.length (open_r (t +:+ NL)))%nat ->
  remove_header_lines (remove_header_lines (t +:+ NL))
  = remove_header_lines (t +:+ NL).
Proof.
  intros Hlen. set (ls := open_r (t +:+ NL)) in *.
  assert (forallb complete_line ls = true) as Hls by apply open_r_complete.
  rewrite (remove_header_lines_spec (t +:+ NL)). fold ls.
  set (F := List.filter kept (skipn 10 ls)).
  rewrite remove_header_lines_spec.
  rewrite open_r_cat.
  2:{ rewrite !forallb_app. rewrite forallb_firstn by done.
      unfold F. rewrite forallb_filter by (by apply forallb_skipn). done. }
  assert (List.length (firstn 10 ls) = 10%nat) as H10.
  { rewrite length_firstn. lia. }
  rewrite firstn_app, H10, Nat.sub_diag, firstn_O, app_nil_r.
  rewrite firstn_all2 by lia.
  rewrite skipn_app, H10, Nat.sub_diag. rewrite skipn_all2 by lia.
  rewrite skipn_O, app_nil_l, List.filter_app. unfold F at 1.
  rewrite filter_kept_twice. fold F.
  change (List.filter kept [closing_tag]) with (@nil string).
  by rewrite app_nil_r.
Qed.

(** The same stream without its last newline: the closing tag of the first
    pass is glued to the comment line, and the second pass adds another. *)
Example unterminated_stream_not_idempotent :
  remove_header_lines (remove_header_lines sample_stream)
  <> remove_header_lines sample_stream.
Proof. by vm_compute. Qed.

Lemma remove_header_lines_idempotent_witness :
  remove_header_lines (remove_header_lines (sample_stream +:+ NL))
  = remove_header_lines (sample_stream +:+ NL).
Proof.
  apply (remove_header_lines_idempotent sample_stream).
  vm_compute. lia.
Defined.

(** * Properties of the download *)

Lemma bind_Ok {A B} (m : M A) (f : A -> M B) (w w' : world) (a : A) :
  m w = Ok a w' -> (m ≫= f) w = f a w'.
Proof. unfold mbind, M_bind. by intros ->. Qed.

Lemma bind_Raise {A B} (m : M A) (f : A -> M B) (w w' : world) (e : exn) :
  m w = Raise e w' -> (m ≫= f) w = Raise e w'.
Proof. unfold mbind, M_bind. by intros ->. Qed.

Lemma log_Ok (ev : event) (w : world) : log ev w = Ok tt (add_events w [ev]).
Proof. reflexivity. Qed.

Lemma add_events_app (w : world) (l1 l2 : list event) :
  add_events (add_events w l1) l2 = add_events w (l1 ++ l2).
Proof. unfold add_events; cbn. by rewrite app_assoc. Qed.

Lemma for_each_app {A S} (body : S -> A -> M S) (l1 l2 : list A) (s : S)
    (w : world) :
  for_each body (l1 ++ l2) s w =
  (s' ← for_each body l1 s; for_each body l2 s') w.
Proof.
  revert s w. induction l1 as [|x l1 IH]; intros s w; [done |].
  cbn [app for_each]. unfold mbind, M_bind in *.
  destruct (body s x w) as [s' w' | e w']; [apply IH | done].
Qed.

(** Evaluates the attempt counter of an unfolded [attempts]. *)
Ltac attempt_numbers :=
  change (0 + 1) with 1 in *; change (1 + 1) with 2 in *;
  change (2 + 1) with 3 in *;
  change (0 <? 3) with true in *; change (1 <? 3) with true in *;
  change (2 <? 3) with true in *; change (3 <? 3) with false in *;
  cbv iota in *.

(** Runs a computation made of the monad's primitives. *)
Ltac run :=
  unfold mbind, mret, M_bind, M_ret, print, log, raise, call, py_assert,
    getitem, load_name, write_batched, handle_read, handle_close,
    create_batched, open_w_batched, read_batched, write_cleaned,
    unlink_batched in *;
  cbn in *.

Section download_facts.

Variable srv : EntrezService.
Variables (count bs : Z) (we qk ak : pyval).

Lemma window_success (G : list string) (fh : option handle) (start : Z)
    (w : world) :
  window_ok srv bs we qk ak start = true ->
  download_window G srv count bs we qk ak fh start w =
  Ok (Some {| h_data := data3 srv bs we qk ak start; h_closed := true |})
     {| trace := trace w ++ window_events srv count bs we qk ak start;
        file_batched :=
          Some (default "" (file_batched w) +:+ data3 srv bs we qk ak start);
        file_cleaned := file_cleaned w |}.
Proof.
  unfold window_ok, data3, window_events, data3.
  destruct (efetch srv start bs we qk ak 1) as [d1|] eqn:E1; [| done].
  destruct (efetch srv start bs we qk ak 2) as [d2|] eqn:E2; [| done].
  destruct (efetch srv start bs we qk ak 3) as [d3|] eqn:E3; [| done].
  intros _. unfold download_window. cbn [attempts]. attempt_numbers.
  rewrite E1, E2, E3. run. by rewrite <- !app_assoc.
Qed.

(** In the module as written, a window with a call that raises ends the
    run at that call: the handler cannot evaluate [HTTPError]. *)
Lemma window_failure (fh : option handle) (start : Z) (w : world) :
  window_ok srv bs we qk ak start = false ->
  exists k : nat, (1 <= k <= 3)%nat /\
    download_window module_globals srv count bs we qk ak fh start w =
    Raise (NameError "HTTPError")
          (add_events w (print_ev count bs start
                         :: repeat (fetch_ev bs we qk ak start) k)).
Proof.
  unfold window_ok, download_window. cbn [attempts]. attempt_numbers.
  destruct (efetch srv start bs we qk ak 1) as [d1|e1] eqn:E1.
  - destruct (efetch srv start bs we qk ak 2) as [d2|e2] eqn:E2.
    + destruct (efetch srv start bs we qk ak 3) as [d3|e3] eqn:E3; [done |].
      intros _. exists 3%nat. split; [lia |].
      unfold except_HTTPError. run. unfold add_events; cbn.
      by rewrite <- !app_assoc.
    + intros _. exists 2%nat. split; [lia |].
      unfold except_HTTPError. run. unfold add_events; cbn.
      by rewrite <- !app_assoc.
  - intros _. exists 1%nat. split; [lia |].
    unfold except_HTTPError. run. unfold add_events; cbn.
    by rewrite <- !app_assoc.
Qed.

Lemma after_windows_nil (w : world) (c : string) :
  file_batched w = Some c -> after_windows srv count bs we qk ak w c [] = w.
Proof.
  intros H. destruct w as [t fb fc]. cbn in H. subst fb.
  unfold after_windows; cbn. by rewrite app_nil_r, append_nil_r.
Qed.

Lemma after_windows_cons (w : world) (c : string) (x : Z) (l : list Z) :
  after_windows srv count bs we qk ak
    {| trace := trace w ++ window_events srv count bs we qk ak x;
       file_batched := Some (c +:+ data3 srv bs we qk ak x);
       file_cleaned := file_cleaned w |}
    (c +:+ data3 srv bs we qk ak x) l
  = after_windows srv count bs we qk ak w c (x :: l).
Proof.
  unfold after_windows; cbn [trace file_cleaned List.flat_map List.map].
  by rewrite cat_cons, append_assoc, <- app_assoc.
Qed.

(** All windows of [l] return: they are downloaded one after the other. *)
Lemma windows_success (G : list string) (l : list Z) (fh : option handle)
    (w : world) (c : string) :
  file_batched w = Some c ->
  forallb (window_ok srv bs we qk ak) l = true ->
  exists fh',
    for_each (download_window G srv count bs we qk ak) l fh w
    = Ok fh' (after_windows srv count bs we qk ak w c l).
Proof.
  revert fh w c. induction l as [|x l IH]; intros fh w c Hc Hl.
  - exists fh. by rewrite after_windows_nil.
  - cbn [forallb] in Hl. apply andb_true_iff in Hl as [Hx Hl].
    cbn [for_each]. erewrite bind_Ok by by apply window_success.
    rewrite Hc. simpl default.
    edestruct (IH (Some {| h_data := data3 srv bs we qk ak x;
                           h_closed := true |})
                 {| trace := trace w ++ window_events srv count bs we qk ak x;
                    file_batched := Some (c +:+ data3 srv bs we qk ak x);
                    file_cleaned := file_cleaned w |}
                 (c +:+ data3 srv bs we qk ak x)) as [fh' Hfh'];
      [done | done |].
    exists fh'. by rewrite Hfh', after_windows_cons.
Qed.

(** The first window of [pre ++ start :: post] with a call that raises
    ends the run; the windows before it are complete. *)
Lemma windows_failure (pre post : list Z) (start : Z) (fh : option handle)
    (w : world) (c : string) :
  file_batched w = Some c ->
  forallb (window_ok srv bs we qk ak) pre = true ->
  window_ok srv bs we qk ak start = false ->
  exists k : nat, (1 <= k <= 3)%nat /\
    for_each (download_window module_globals srv count bs we qk ak)
             (pre ++ start :: post) fh w
    = Raise (NameError "HTTPError")
            (add_events (after_windows srv count bs we qk ak w c pre)
                        (print_ev count bs start
                         :: repeat (fetch_ev bs we qk ak start) k)).
Proof.
  intros Hc Hpre Hs.
  destruct (windows_success module_globals pre fh w c Hc Hpre) as [fh' Hfh'].
  destruct (window_failure fh' start
              (after_windows srv count bs we qk ak w c pre) Hs)
    as (k & Hk & Hfail).
  exists k. split; [done |].
  rewrite for_each_app. erewrite bind_Ok by exact Hfh'.
  cbn [for_each]. by erewrite bind_Raise by exact Hfail.
Qed.

Lemma first_failure {A} (P : A -> bool) (l : list A) :
  forallb P l = false ->
  exists (pre : list A) (x : A) (post : list A),
    l = (pre ++ x :: post)%list /\ forallb P pre = true /\ P x = false.
Proof.
  induction l as [|a l IH]; [done |]. cbn [forallb].
  destruct (P a) eqn:Ea.
  - intros H. destruct (IH H) as (pre & x & post & -> & Hpre & Hx).
    exists (a :: pre), x, post. cbn [forallb]. by rewrite Ea.
  - intros _. by exists [], a, l.
Qed.

(** Downloading a list of windows in the module as written: either every
    window is complete, or the run stops in the first window that has a
    raising call. *)
Lemma windows_run (l : list Z) (fh : option handle) (w : world) (c : string) :
  file_batched w = Some c ->
  (forallb (window_ok srv bs we qk ak) l = true /\
   exists fh',
     for_each (download_window module_globals srv count bs we qk ak) l fh w
     = Ok fh' (after_windows srv count bs we qk ak w c l))
  \/
  (exists (pre : list Z) (start : Z) (post : list Z) (k : nat),
     l = (pre ++ start :: post)%list /\
     forallb (window_ok srv bs we qk ak) pre = true /\
     window_ok srv bs we qk ak start = false /\ (1 <= k <= 3)%nat /\
     for_each (download_window module_globals srv count bs we qk ak) l fh w
     = Raise (NameError "HTTPError")
             (add_events (after_windows srv count bs we qk ak w c pre)
                         (print_ev count bs start
                          :: repeat (fetch_ev bs we qk ak start) k))).
Proof.
  intros Hc. destruct (forallb (window_ok srv bs we qk ak) l) eqn:Hl.
  - left. split; [done |]. by apply windows_success.
  - right. destruct (first_failure _ _ Hl) as (pre & x & post & -> & Hpre & Hx).
    destruct (windows_failure pre post x fh w c Hc Hpre Hx) as (k & Hk & Hrun).
    by exists pre, x, post, k.
Qed.

Lemma py_range_starts (w : world) :
  0 < bs -> py_range 0 count bs w = Ok (window_starts count bs) w.
Proof.
  intros Hbs. unfold py_range, window_starts.
  destruct (Z.eqb_spec bs 0) as [-> | _]; [lia |].
  reflexivity.
Qed.

Lemma range_length_ceil :
  0 <= count -> 0 < bs -> range_length 0 count bs = (count + bs - 1) / bs.
Proof.
  intros Hc Hbs. unfold range_length.
  destruct (Z.ltb_spec 0 bs) as [_ | ?]; [| lia].
  destruct (Z.ltb_spec 0 count) as [Hpos | Hzero].
  - replace (count + bs - 1) with (count - 0 - 1 + 1 * bs) by lia.
    rewrite Z.div_add by lia. lia.
  - replace count with 0 by lia. symmetry. apply Z.div_small. lia.
Qed.

Lemma download_batches_eq (G : list string) (w : world) :
  0 < bs ->
  download_batches G srv count bs we qk ak w =
  match for_each (download_window G srv count bs we qk ak)
                 (window_starts count bs) None (opened w) with
  | Ok _ w' => Ok tt w'
  | Raise e w' => Raise e w'
  end.
Proof.
  intros Hbs. unfold download_batches.
  erewrite bind_Ok by reflexivity.
  erewrite bind_Ok by by apply py_range_starts.
  unfold mbind, M_bind. fold (opened w).
  by destruct (for_each _ _ _ _).
Qed.

End download_facts.

Lemma least_failing (P : nat -> bool) (i : nat) :
  P i = false ->
  exists j : nat,
    (j <= i)%nat /\ P j = false /\ forall j', (j' < j)%nat -> P j' = true.
Proof.
  induction i as [i IH] using lt_wf_ind. intros Hi.
  destruct (forallb P (seq 0 i)) eqn:Hall.
  - exists i. split; [lia |]. split; [done |]. intros j' Hj'.
    rewrite forallb_forall in Hall. apply Hall, in_seq. lia.
  - destruct (first_failure _ _ Hall) as (pre & x & post & Heq & _ & Hx).
    assert (In x (seq 0 i)) as Hin by (rewrite Heq; apply in_elt).
    apply in_seq in Hin.
    destruct (IH x ltac:(lia) Hx) as (j & Hj & HPj & Hmin).
    exists j. split; [lia | done].
Qed.

Lemma seq_split (n j : nat) :
  (j < n)%nat -> seq 0 n = (seq 0 j ++ j :: seq (S j) (n - S j))%list.
Proof.
  intros Hj. replace n with (j + S (n - S j))%nat at 1 by lia.
  by rewrite seq_app.
Qed.

(** C8: for a count of at least 0 and a positive batch size, the windows
    start at 0, each ends where the next starts, all have the batch size but
    the last, which ends at the count; when every call returns, the windows
    are handled one after the other in this order (progress message, the
    calls, one write), and the batched file is the concatenation, in window
    order, of the texts written. *)
Theorem windows_sequential (G : list string) (srv : EntrezService)
    (count bs : Z) (we qk ak : pyval) (w : world) :
  0 <= count -> 0 < bs ->
  let n := Z.to_nat ((count + bs - 1) / bs) in
  let starts := List.map (fun i => Z.of_nat i * bs) (seq 0 n) in
  (forall start, In start starts -> window_ok srv bs we qk ak start = true) ->
  (forall i : nat, (i < n)%nat ->
     let start := Z.of_nat i * bs in
     let end_ := Z.min count (start + bs) in
     0 <= start < end_ /\ end_ <= count /\
     ((S i < n)%nat -> end_ = start + bs) /\
     (S i = n -> end_ = count)) /\
  download_batches G srv count bs we qk ak w =
  Ok tt {| trace := trace w ++
                    List.flat_map (window_events srv count bs we qk ak) starts;
           file_batched := Some (cat (List.map (data3 srv bs we qk ak) starts));
           file_cleaned := file_cleaned w |}.
Proof.
  intros Hc Hbs n starts Hok. split.
  - intros i Hi start end_. subst n start end_.
    assert (0 <= (count + bs - 1) / bs) as Hn by (apply Z.div_pos; lia).
    pose proof (Z.mul_div_le (count + bs - 1) bs Hbs) as Hle.
    pose proof (Z.mul_succ_div_gt (count + bs - 1) bs Hbs) as Hgt.
    set (N := (count + bs - 1) / bs) in *.
    assert (Z.of_nat i + 1 <= N) as HiN by lia.
    repeat split; nia.
  - rewrite download_batches_eq by done.
    assert (window_starts count bs = starts) as Hstarts.
    { unfold window_starts. by rewrite range_length_ceil. }
    rewrite Hstarts.
    destruct (windows_success srv count bs we qk ak G starts None
                (opened w) "" eq_refl) as [fh' Hrun].
    { apply forallb_forall. exact Hok. }
    by rewrite Hrun.
Qed.

(** C1, counterexample: one window whose three calls raise a 503 error;
    the run ends with a [NameError], not with a FetchExhaustedError. *)
Lemma exhausted_is_not_FetchExhaustedError :
  exists (e : exn) (w' : world),
    download_batches module_globals always_503 1 1
                     (PyStr "W") (PyStr "1") (PyStr "key") initial_world
    = Raise e w' /\
    exn_class e <> "FetchExhaustedError".
Proof.
  eexists _, _. split; [by vm_compute |]. by vm_compute.
Qed.

(** C1, as amended: when the three calls for a window raise a 5xx error, the
    download does not go past that window: it ends with an exception at a
    window [j] that is this one at the latest, and this one when the calls
    for all earlier windows returned; the batched file holds the texts
    written for the windows before [j] and stays, and after the last of
    these writes only window [j] was announced and requested. *)
Theorem exhausted_window_fails (srv : EntrezService) (count bs : Z)
    (we qk ak : pyval) (i : nat) (w : world) :
  0 < bs ->
  (i < List.length (window_starts count bs))%nat ->
  (forall k, 1 <= k <= 3 ->
     exists code, 500 <= code <= 599 /\
       efetch srv (Z.of_nat i * bs) bs we qk ak k = Raises (HTTPError code)) ->
  exists (e : exn) (w' : world) (j k : nat),
    (j <= i)%nat /\
    (forall j', (j' < j)%nat ->
       window_ok srv bs we qk ak (Z.of_nat j' * bs) = true) /\
    window_ok srv bs we qk ak (Z.of_nat j * bs) = false /\
    download_batches module_globals srv count bs we qk ak w = Raise e w' /\
    let done := List.map (fun j' => Z.of_nat j' * bs) (seq 0 j) in
    file_batched w' = Some (cat (List.map (data3 srv bs we qk ak) done)) /\
    trace w' =
      (trace w ++ List.flat_map (window_events srv count bs we qk ak) done
       ++ print_ev count bs (Z.of_nat j * bs)
       :: repeat (fetch_ev bs we qk ak (Z.of_nat j * bs)) k)%list.
Proof.
  intros Hbs Hi Hfail.
  set (f := fun j' : nat => Z.of_nat j' * bs).
  set (P := fun j' : nat => window_ok srv bs we qk ak (f j')).
  assert (P i = false) as HPi.
  { unfold P, window_ok, f.
    destruct (Hfail 1 ltac:(lia)) as (code & _ & ->). done. }
  destruct (least_failing P i HPi) as (j & Hj & HPj & Hmin).
  unfold window_starts in Hi. rewrite length_map, length_seq in Hi.
  set (n := Z.to_nat (range_length 0 count bs)) in *.
  assert (window_starts count bs
          = (List.map f (seq 0 j) ++ f j :: List.map f (seq (S j) (n - S j)))%list)
    as Hsplit.
  { unfold window_starts. fold n f. rewrite (seq_split n j) by lia.
    by rewrite map_app. }
  assert (forallb (window_ok srv bs we qk ak) (List.map f (seq 0 j)) = true)
    as Hpre.
  { apply forallb_forall. intros x Hx. apply in_map_iff in Hx as (j' & <- & Hj').
    apply in_seq in Hj'. apply Hmin. lia. }
  destruct (windows_failure srv count bs we qk ak _
              (List.map f (seq (S j) (n - S j))) (f j) None (opened w) ""
              eq_refl Hpre HPj) as (k & Hk & Hrun).
  eexists _, _, j, k. split; [done |]. split; [exact Hmin |].
  split; [exact HPj |].
  rewrite download_batches_eq by done. rewrite Hsplit, Hrun.
  split; [reflexivity |]. cbn. split; [done |].
  by rewrite <- app_assoc.
Qed.

Lemma exhausted_window_fails_witness :
  exists (e : exn) (w' : world) (j k : nat),
    (j <= 0)%nat /\
    (forall j', (j' < j)%nat ->
       window_ok always_503 1 (PyStr "W") (PyStr "1") (PyStr "key")
                 (Z.of_nat j' * 1) = true) /\
    window_ok always_503 1 (PyStr "W") (PyStr "1") (PyStr "key")
              (Z.of_nat j * 1) = false /\
    download_batches module_globals always_503 1 1
                     (PyStr "W") (PyStr "1") (PyStr "key") initial_world
    = Raise e w' /\
    let done := List.map (fun j' => Z.of_nat j' * 1) (seq 0 j) in
    file_batched w'
    = Some (cat (List.map (data3 always_503 1 (PyStr "W") (PyStr "1")
                                 (PyStr "key")) done)) /\
    trace w' =
      (trace initial_world
       ++ List.flat_map (window_events always_503 1 1 (PyStr "W") (PyStr "1")
                                       (PyStr "key")) done
       ++ print_ev 1 1 (Z.of_nat j * 1)
       :: repeat (fetch_ev 1 (PyStr "W") (PyStr "1") (PyStr "key")
                           (Z.of_nat j * 1)) k)%list.
Proof.
  apply (exhausted_window_fails always_503 1 1 (PyStr "W") (PyStr "1")
           (PyStr "key") 0 initial_world).
  - lia.
  - vm_compute. lia.
  - intros k Hk. exists 503. split; [lia | reflexivity].
Defined.

Lemma windows_sequential_witness :
  download_batches module_globals steady_service 5 2
                   (PyStr "W") (PyStr "1") (PyStr "key") initial_world
  = Ok tt
       {| trace :=
            trace initial_world ++
            List.flat_map
              (window_events steady_service 5 2 (PyStr "W") (PyStr "1")
                             (PyStr "key"))
              (List.map (fun i => Z.of_nat i * 2)
                        (seq 0 (Z.to_nat ((5 + 2 - 1) / 2))));
          file_batched :=
            Some (cat (List.map
                         (data3 steady_service 2 (PyStr "W") (PyStr "1")
                                (PyStr "key"))
                         (List.map (fun i => Z.of_nat i * 2)
                                   (seq 0 (Z.to_nat ((5 + 2 - 1) / 2))))));
          file_cleaned := file_cleaned initial_world |}.
Proof.
  apply (windows_sequential module_globals steady_service 5 2
           (PyStr "W") (PyStr "1") (PyStr "key") initial_world).
  - lia.
  - lia.
  - intros start _. reflexivity.
Defined.

Example five_records_in_batches_of_two :
  final_world
    (download_batches module_globals steady_service 5 2
                      (PyStr "W") (PyStr "1") (PyStr "key") initial_world)
  = {| trace :=
         [ EvPrint (MsgDownload 1 2);
           EvFetch 0 2 (PyStr "W") (PyStr "1") (PyStr "key");
           EvFetch 0 2 (PyStr "W") (PyStr "1") (PyStr "key");
           EvFetch 0 2 (PyStr "W") (PyStr "1") (PyStr "key");
           EvWrite (batch_text 0);
           EvPrint (MsgDownload 3 4);
           EvFetch 2 2 (PyStr "W") (PyStr "1") (PyStr "key");
           EvFetch 2 2 (PyStr "W") (PyStr "1") (PyStr "key");
           EvFetch 2 2 (PyStr "W") (PyStr "1") (PyStr "key");
           EvWrite (batch_text 2);
           EvPrint (MsgDownload 5 5);
           EvFetch 4 2 (PyStr "W") (PyStr "1") (PyStr "key");
           EvFetch 4 2 (PyStr "W") (PyStr "1") (PyStr "key");
           EvFetch 4 2 (PyStr "W") (PyStr "1") (PyStr "key");
           EvWrite (batch_text 4) ];
       file_batched := Some (batch_text 0 +:+ batch_text 2 +:+ batch_text 4);
       file_cleaned := None |}.
Proof. by vm_compute. Qed.

(** ** The retry handler *)

Lemma unbound_names :
  List.filter (fun x => negb (name_bound module_globals x)) get_clean_xml_names
  = ["HTTPError"; "time"].
Proof. reflexivity. Qed.

Lemma except_HTTPError_module (err : exn) (attempt : Z) (w : world) :
  except_HTTPError module_globals err attempt w
  = Raise (NameError "HTTPError") w.
Proof. reflexivity. Qed.

Lemma attempts_raise (srv : EntrezService) (bs : Z) (we qk ak : pyval)
    (fuel : nat) (start attempt : Z) (fh : option handle) (w : world)
    (err : exn) :
  attempt < 3 ->
  efetch srv start bs we qk ak (attempt + 1) = Raises err ->
  attempts module_globals srv bs we qk ak (S fuel) start attempt fh w
  = Raise (NameError "HTTPError") (add_events w [EvFetch start bs we qk ak]).
Proof.
  intros Hlt Herr. cbn [attempts].
  destruct (Z.ltb_spec attempt 3) as [_ | ?]; [| lia].
  rewrite Herr. erewrite bind_Ok by apply log_Ok.
  erewrite bind_Raise by apply except_HTTPError_module. reflexivity.
Qed.

Lemma no_retry_in_windows (srv : EntrezService) (count bs : Z)
    (we qk ak : pyval) (l : list Z) :
  forallb (fun ev => negb (is_retry_event ev))
          (List.flat_map (window_events srv count bs we qk ak) l) = true.
Proof.
  induction l as [|x l IH]; [done |]. cbn [List.flat_map].
  rewrite forallb_app, IH. reflexivity.
Qed.

Lemma no_retry_in_fetches (bs : Z) (we qk ak : pyval) (start : Z) (k : nat) :
  forallb (fun ev => negb (is_retry_event ev))
          (repeat (fetch_ev bs we qk ak start) k) = true.
Proof. induction k as [|k IH]; [done |]. cbn. exact IH. Qed.

(** No run of the download, whatever the service answers, sleeps or prints
    the handler's messages. *)
Lemma download_never_retries (srv : EntrezService) (count bs : Z)
    (we qk ak : pyval) (w : world) :
  exists evs : list event,
    trace (final_world
             (download_batches module_globals srv count bs we qk ak w))
    = (trace w ++ evs)%list /\
    forallb (fun ev => negb (is_retry_event ev)) evs = true.
Proof.
  unfold download_batches.
  erewrite bind_Ok by reflexivity. fold (opened w).
  unfold py_range. destruct (bs =? 0).
  - exists []. by rewrite app_nil_r.
  - erewrite bind_Ok by reflexivity.
    set (l := List.map _ _).
    destruct (windows_run srv count bs we qk ak l None (opened w) "" eq_refl)
      as [[_ [fh' Hrun]] | (pre & s & post & k & _ & _ & _ & _ & Hrun)].
    + erewrite bind_Ok by exact Hrun.
      exists (List.flat_map (window_events srv count bs we qk ak) l).
      split; [done | apply no_retry_in_windows].
    + erewrite bind_Raise by exact Hrun.
      exists (List.flat_map (window_events srv count bs we qk ak) pre
              ++ print_ev count bs s :: repeat (fetch_ev bs we qk ak s) k)%list.
      split; [cbn; by rewrite app_assoc |].
      rewrite forallb_app, no_retry_in_windows. cbn.
      apply no_retry_in_fetches.
Qed.

(** C9: of the names [get_clean_xml] loads, [HTTPError] and [time] are
    bound nowhere; so when a call to [efetch] raises, whatever the
    exception, matching it against the except clause raises
    [NameError], the loop ends there with that error after the one request,
    and no run reaches the sleep or the messages of the retry branch. *)
Theorem except_clause_raises_NameError (srv : EntrezService) (bs : Z)
    (we qk ak : pyval) (fuel : nat) (start attempt : Z)
    (fh : option handle) (w : world) (err : exn) :
  attempt < 3 ->
  efetch srv start bs we qk ak (attempt + 1) = Raises err ->
  List.filter (fun x => negb (name_bound module_globals x)) get_clean_xml_names
  = ["HTTPError"; "time"] /\
  (forall w', except_HTTPError module_globals err (attempt + 1) w'
              = Raise (NameError "HTTPError") w') /\
  attempts module_globals srv bs we qk ak (S fuel) start attempt fh w
  = Raise (NameError "HTTPError") (add_events w [EvFetch start bs we qk ak]) /\
  (forall count w0, exists evs : list event,
     trace (final_world
              (download_batches module_globals srv count bs we qk ak w0))
     = (trace w0 ++ evs)%list /\
     forallb (fun ev => negb (is_retry_event ev)) evs = true).
Proof.
  intros Hlt Herr. split; [apply unbound_names |].
  split; [intros w'; apply except_HTTPError_module |].
  split; [by apply (attempts_raise _ _ _ _ _ _ _ _ _ _ err) |].
  intros count w0. apply download_never_retries.
Qed.

Lemma except_clause_raises_NameError_witness :
  attempts module_globals not_found_service 2 (PyStr "W") (PyStr "1")
           (PyStr "key") 3 0 0 None initial_world
  = Raise (NameError "HTTPError")
          (add_events initial_world
             [EvFetch 0 2 (PyStr "W") (PyStr "1") (PyStr "key")]).
Proof.
  apply (except_clause_raises_NameError not_found_service 2 (PyStr "W")
           (PyStr "1") (PyStr "key") 2 0 0 None initial_world
           (HTTPError 404)).
  - lia.
  - reflexivity.
Defined.

(** Three iterations are all the loop can make: more fuel changes
    nothing. *)
Lemma attempts_S (G : list string) (srv : EntrezService) (bs : Z)
    (we qk ak : pyval) (fuel : nat) (start attempt : Z)
    (fh : option handle) :
  attempts G srv bs we qk ak (S fuel) start attempt fh =
  if attempt <? 3 then
    log (EvFetch start bs we qk ak) ;;
    match efetch srv start bs we qk ak (attempt + 1) with
    | Returns data =>
        attempts G srv bs we qk ak fuel start (attempt + 1)
                 (Some {| h_data := data; h_closed := false |})
    | Raises err =>
        except_HTTPError G err (attempt + 1) ;;
        attempts G srv bs we qk ak fuel start (attempt + 1) fh
    end
  else mret fh.
Proof. reflexivity. Qed.

Lemma attempts_fuel (G : list string) (srv : EntrezService) (bs : Z)
    (we qk ak : pyval) (fuel : nat) (start attempt : Z)
    (fh : option handle) (w : world) :
  3 - attempt <= Z.of_nat fuel ->
  attempts G srv bs we qk ak (S fuel) start attempt fh w
  = attempts G srv bs we qk ak fuel start attempt fh w.
Proof.
  revert attempt fh w. induction fuel as [|fuel IH]; intros attempt fh w Hf.
  - cbn [attempts]. destruct (Z.ltb_spec attempt 3); [lia | done].
  - rewrite (attempts_S G srv bs we qk ak (S fuel) start attempt fh).
    rewrite (attempts_S G srv bs we qk ak fuel start attempt fh).
    destruct (Z.ltb_spec attempt 3); [| done].
    unfold mbind, M_bind.
    destruct (log _ w) as [[] w1 | e w1]; [| done].
    destruct (efetch srv start bs we qk ak (attempt + 1)) as [d | err].
    + apply IH. lia.
    + destruct (except_HTTPError G err (attempt + 1) w1) as [[] w2 | e w2];
        [| done].
      apply IH. lia.
Qed.

(** C2: what the loop of lines 76 to 90 does instead.  When the first call
    for a window raises, transient or not, the window ends with [NameError]
    after that one request: nothing is retried, nothing waits, and the
    error raised is not the one received.  When the first call returns,
    the loop still makes the second and the third call, and the text
    written is the third one's. *)
Theorem retry_handler_defects (srv : EntrezService) (count bs : Z)
    (we qk ak : pyval) (fh : option handle) (start : Z) (w : world) :
  (forall err, efetch srv start bs we qk ak 1 = Raises err ->
     download_window module_globals srv count bs we qk ak fh start w
     = Raise (NameError "HTTPError")
             (add_events w [print_ev count bs start;
                            fetch_ev bs we qk ak start])) /\
  (window_ok srv bs we qk ak start = true ->
     download_window module_globals srv count bs we qk ak fh start w
     = Ok (Some {| h_data := data3 srv bs we qk ak start; h_closed := true |})
          {| trace := trace w ++ window_events srv count bs we qk ak start;
             file_batched :=
               Some (default "" (file_batched w)
                     +:+ data3 srv bs we qk ak start);
             file_cleaned := file_cleaned w |}).
Proof.
  split.
  - intros err Herr. unfold download_window.
    erewrite bind_Ok by apply log_Ok.
    erewrite bind_Raise; [reflexivity |].
    rewrite (attempts_raise _ _ _ _ _ _ _ _ _ _ err) by (lia || done).
    by rewrite add_events_app.
  - apply window_success.
Qed.

Example transient_error_not_retried :
  download_batches module_globals one_503_service 5 2
                   (PyStr "W") (PyStr "1") (PyStr "key") initial_world
  = Raise (NameError "HTTPError")
          {| trace := [ EvPrint (MsgDownload 1 2);
                        EvFetch 0 2 (PyStr "W") (PyStr "1") (PyStr "key") ];
             file_batched := Some "";
             file_cleaned := None |}.
Proof. by vm_compute. Qed.

Example success_not_ending_attempts :
  trace (final_world
           (download_batches module_globals steady_service 2 2
                             (PyStr "W") (PyStr "1") (PyStr "key")
                             initial_world))
  = [ EvPrint (MsgDownload 1 2);
      EvFetch 0 2 (PyStr "W") (PyStr "1") (PyStr "key");
      EvFetch 0 2 (PyStr "W") (PyStr "1") (PyStr "key");
      EvFetch 0 2 (PyStr "W") (PyStr "1") (PyStr "key");
      EvWrite (batch_text 0) ].
Proof. by vm_compute. Qed.

(** With [HTTPError] and [time] bound as well, the handler runs: the loop
    also sleeps after the third failure, and then reads a handle that was
    never bound. *)
Example with_names_bound :
  download_batches ("HTTPError" :: "time" :: module_globals) always_503 1 1
                   (PyStr "W") (PyStr "1") (PyStr "key") initial_world
  = Raise (UnboundLocalError "fetch_handle")
          {| trace := [ EvPrint (MsgDownload 1 1);
                        EvFetch 0 1 (PyStr "W") (PyStr "1") (PyStr "key");
                        EvPrint (MsgServerError (HTTPError 503));
                        EvPrint (MsgAttempt 1); EvSleep 15;
                        EvFetch 0 1 (PyStr "W") (PyStr "1") (PyStr "key");
                        EvPrint (MsgServerError (HTTPError 503));
                        EvPrint (MsgAttempt 2); EvSleep 15;
                        EvFetch 0 1 (PyStr "W") (PyStr "1") (PyStr "key");
                        EvPrint (MsgServerError (HTTPError 503));
                        EvPrint (MsgAttempt 3); EvSleep 15 ];
             file_batched := Some "";
             file_cleaned := None |}.
Proof. by vm_compute. Qed.

(** ** Session set-up *)

(** C5, counterexample: with zero results the function raises nothing; it
    fetches no window and writes a cleaned file that holds the search-term
    comment and the closing tag. *)
Lemma zero_results_no_error :
  get_clean_xml empty_service "nothing" "me@example.org" (PyStr "key") 100
                initial_world
  = Ok tt
       {| trace := [ EvSearch "nothing" 50000 true;
                     EvSearch "nothing" 0 false;
                     EvPrint (MsgRecords 0 "nothing");
                     EvPost "";
                     EvWrite (search_term_comment "nothing") ];
          file_batched := None;
          file_cleaned :=
            Some (search_term_comment "nothing" +:+ closing_tag) |}.
Proof. by vm_compute. Qed.

(** C5, as amended: when the first search reply carries no session token
    the function ends with [KeyError]; when the count differs from the
    length of the identifier list it ends with [AssertionError]; when the
    reply to the post carries no session token it ends with [KeyError].
    In each case every request made so far was made once, and no window is
    fetched. *)
Theorem session_failures (G : list string) (srv : EntrezService)
    (search_term pubmed_user : string) (pubmed_key : pyval) (batch_size : Z)
    (w : world) (record : gmap string pyval) (s : string) (count : Z) :
  esearch srv search_term 50000 true = Returns record ->
  record !! "Count" = Some (PyStr s) ->
  parse_int s = Some count ->
  let run := get_clean_xml_in G srv search_term pubmed_user pubmed_key
                              batch_size w in
  let after (evs : list event) : world :=
    {| trace := trace w ++ evs;
       file_batched := Some "";
       file_cleaned := file_cleaned w |} in
  (record !! "WebEnv" = None ->
   run = Raise (KeyError "WebEnv") (after [EvSearch search_term 50000 true]))
  /\
  (forall (webenv query_key : pyval) (record2 : gmap string pyval)
          (ids : list pyval),
     record !! "WebEnv" = Some webenv ->
     record !! "QueryKey" = Some query_key ->
     esearch srv search_term count false = Returns record2 ->
     record2 !! "IdList" = Some (PyList ids) ->
     (count <> Z.of_nat (List.length ids) ->
      run = Raise AssertionError
                  (after [EvSearch search_term 50000 true;
                          EvSearch search_term count false])) /\
     (forall (ss : list string) (posted : gmap string pyval),
        count = Z.of_nat (List.length ids) ->
        str_items ids = Some ss ->
        epost srv (String.concat "," ss) = Returns posted ->
        posted !! "WebEnv" = None ->
        run = Raise (KeyError "WebEnv")
                    (after [EvSearch search_term 50000 true;
                            EvSearch search_term count false;
                            EvPrint (MsgRecords count search_term);
                            EvPost (String.concat "," ss)]))).
Proof.
  intros Hsearch Hcount Hparse run after. subst run after.
  unfold get_clean_xml_in, open_session.
  split.
  - intros Hwe. run. rewrite Hsearch. run. rewrite Hcount. run.
    unfold py_int. rewrite (parse_int_read _ _ Hparse). run. rewrite Hwe. reflexivity.
  - intros webenv query_key record2 ids Hwe Hqk Hsearch2 Hids. split.
    + intros Hne. run. rewrite Hsearch. run. rewrite Hcount. run.
      unfold py_int. rewrite (parse_int_read _ _ Hparse). run. rewrite Hwe, Hqk. run.
      rewrite Hsearch2. run. rewrite Hids. run.
      destruct (Z.eqb_spec count (Z.of_nat (List.length ids))); [done |].
      run. by rewrite <- app_assoc.
    + intros ss posted Heq Hss Hpost Hnone.
      run. rewrite Hsearch. run. rewrite Hcount. run.
      unfold py_int. rewrite (parse_int_read _ _ Hparse). run. rewrite Hwe, Hqk. run.
      rewrite Hsearch2. run. rewrite Hids. run.
      destruct (Z.eqb_spec count (Z.of_nat (List.length ids))); [| done].
      run. rewrite Hss. run. rewrite Hpost. run. rewrite Hnone.
      by rewrite <- !app_assoc.
Qed.

Lemma session_failures_witness :
  get_clean_xml_in module_globals mismatch_service "crispr" "me@example.org"
                   (PyStr "key") 2 initial_world
  = Raise AssertionError
          {| trace := trace initial_world ++
                      [ EvSearch "crispr" 50000 true;
                        EvSearch "crispr" 5 false ];
             file_batched := Some "";
             file_cleaned := file_cleaned initial_world |}.
Proof.
  refine (proj1 (proj2 (session_failures module_globals mismatch_service
                          "crispr" "me@example.org" (PyStr "key") 2
                          initial_world sample_record "5" 5
                          eq_refl eq_refl eq_refl)
                   (PyStr "W") (PyStr "1") short_list_record
                   [PyStr "11"; PyStr "12"]
                   eq_refl eq_refl eq_refl eq_refl) _).
  cbn. lia.
Defined.

(** ** The search-term comment *)

Lemma universal_newlines_app_aux (a b : string) :
  (forall b', b <> String LF b') ->
  universal_newlines (a +:+ b) = universal_newlines a +:+ universal_newlines b
  /\ forall c, universal_newlines (String c a +:+ b)
              = universal_newlines (String c a) +:+ universal_newlines b.
Proof.
  intros Hb. induction a as [|c' a [IH1 IH2]].
  - split; [done |]. intros c.
    rewrite append_cons, append_nil_l, !universal_newlines_cons.
    destruct (Ascii.eqb c CR); [| done].
    cbn [universal_newlines]. rewrite append_cons, append_nil_l. f_equal.
    destruct b as [|c'' b'']; [done |].
    destruct (Ascii.eqb_spec c'' LF) as [-> | _]; [by destruct (Hb b'') | done].
  - split; [apply IH2 |]. intros c.
    rewrite !append_cons, (universal_newlines_cons c).
    rewrite (universal_newlines_cons c (String c' a)).
    destruct (Ascii.eqb c CR).
    + rewrite append_cons. f_equal.
      destruct (Ascii.eqb c' LF); [exact IH1 |].
      rewrite <- append_cons. apply IH2.
    + rewrite append_cons. f_equal. rewrite <- append_cons. apply IH2.
Qed.

Lemma universal_newlines_app (a b : string) :
  (forall b', b <> String LF b') ->
  universal_newlines (a +:+ b) = universal_newlines a +:+ universal_newlines b.
Proof. intros Hb. by apply universal_newlines_app_aux. Qed.

Lemma lines_of_app (t s : string) :
  terminated t = true -> lines_of (t +:+ s) = (lines_of t ++ lines_of s)%list.
Proof.
  induction t as [|c t IH]; [done |]. intros Ht.
  assert (terminated t = true) as Ht' by (destruct t; [done | exact Ht]).
  rewrite append_cons, !lines_of_cons, IH by done.
  destruct (Ascii.eqb c LF) eqn:E; [done |].
  destruct (lines_of t) as [|l ls] eqn:El; [| done].
  apply lines_of_nil in El. subst t. cbn [terminated] in Ht. congruence.
Qed.

Lemma complete_line_app (a l : string) :
  no_line_break a = true -> complete_line (a +:+ l) = complete_line l.
Proof.
  induction a as [|c a IH]; [done |]. cbn [no_line_break].
  intros H. apply andb_true_iff in H as [H Ha].
  apply andb_true_iff in H as [Hlf Hcr].
  rewrite append_cons. cbn [complete_line].
  apply negb_true_iff in Hlf. by rewrite Hlf, Hcr, IH.
Qed.

Lemma comment_line_complete (search_term : string) :
  no_line_break search_term = true ->
  complete_line (comment_line search_term) = true.
Proof.
  intros H. unfold comment_line.
  rewrite complete_line_app by reflexivity.
  rewrite complete_line_app by exact H. reflexivity.
Qed.

(** When the search term has no line break, its comment is the last line
    read from the batched file. *)
Lemma comment_is_last_line (data search_term : string) :
  no_line_break search_term = true ->
  open_r (data +:+ search_term_comment search_term)
  = (open_r (data +:+ NL) ++ [comment_line search_term])%list.
Proof.
  intros H. pose proof (comment_line_complete _ H) as Hc.
  change (search_term_comment search_term)
    with (NL +:+ comment_line search_term).
  rewrite <- append_assoc. unfold open_r.
  rewrite universal_newlines_app by (intros b'; discriminate).
  rewrite lines_of_app by apply universal_newlines_terminated.
  f_equal.
  pose proof (complete_line_newlines _ "" Hc) as Hn.
  pose proof (complete_line_lines _ "" Hc) as Hl.
  cbn [universal_newlines lines_of] in Hn, Hl.
  rewrite append_nil_r in Hn, Hl. by rewrite Hn, Hl.
Qed.

Lemma prefix_append (p s : string) :
  String.prefix p s = true <-> exists rest, s = p +:+ rest.
Proof.
  revert s. induction p as [|c p IH]; intros s.
  - split; [intros _; by exists s | intros _; by destruct s].
  - destruct s as [|c' s]; cbn [String.prefix].
    + split; [done | intros [rest H]; discriminate H].
    + destruct (ascii_dec c c') as [<- | Hne].
      * rewrite IH. split; intros [rest H]; exists rest.
        -- by rewrite append_cons, H.
        -- rewrite append_cons in H. by injection H.
      * split; [done |]. intros [rest H]. rewrite append_cons in H.
        injection H as H1 H2. by destruct Hne.
Qed.

Lemma kept_artifact (line : string) : kept line = negb (artifact line).
Proof.
  unfold kept, startswith, problems, artifact. cbn [existsb].
  by rewrite orb_false_r, !orb_assoc.
Qed.

Lemma filter_kept_artifact (l : list string) :
  List.filter kept l = List.filter (fun line => negb (artifact line)) l.
Proof. apply filter_ext. intros line. apply kept_artifact. Qed.

Lemma universal_newlines_id (s : string) :
  no_cr s = true -> universal_newlines s = s.
Proof.
  induction s as [|c s IH]; [done |]. cbn [no_cr].
  intros H. apply andb_true_iff in H as [Hc Hs].
  rewrite universal_newlines_cons. apply negb_true_iff in Hc.
  by rewrite Hc, IH.
Qed.

Lemma remove_header_lines_as_specified (raw : string) :
  no_cr raw = true -> remove_header_lines raw = normalized_as_specified raw.
Proof.
  intros Hraw. rewrite remove_header_lines_spec. unfold open_r.
  rewrite universal_newlines_id by done.
  by rewrite filter_kept_artifact.
Qed.

Lemma comment_before_closing_tag (downloaded search_term : string) :
  no_line_break search_term = true ->
  exists body : string,
    remove_header_lines (downloaded +:+ search_term_comment search_term)
    = body +:+ comment_line search_term +:+ closing_tag.
Proof.
  intros Hterm. rewrite remove_header_lines_spec, comment_is_last_line by done.
  set (L := open_r (downloaded +:+ NL)).
  set (cl := comment_line search_term).
  destruct (Nat.lt_ge_cases (List.length L) 10) as [Hshort | Hlong].
  - exists (cat L).
    rewrite firstn_all2 by (rewrite length_app; cbn; lia).
    rewrite skipn_all2 by (rewrite length_app; cbn; lia).
    cbn [List.filter app]. rewrite !cat_app, !cat_cons.
    cbn [cat fold_right]. by rewrite !append_nil_r, append_assoc.
  - exists (cat (firstn 10 L) +:+ cat (List.filter kept (skipn 10 L))).
    rewrite firstn_app, skipn_app.
    replace (10 - List.length L)%nat with 0%nat by lia.
    rewrite firstn_O, skipn_O, app_nil_r, List.filter_app.
    change (List.filter kept [cl]) with [cl].
    rewrite !cat_app, !cat_cons. cbn [cat fold_right].
    by rewrite !append_nil_r, !append_assoc.
Qed.

(** C6, counterexample: the one line ["a\r\n"] is not copied as it is; it
    is written with the line feed alone. *)
Lemma header_removal_not_verbatim :
  remove_header_lines crlf_stream <> normalized_as_specified crlf_stream.
Proof. by vm_compute. Qed.

(** The second line of the comment of a search term with a line break is
    dropped when it starts with one of the prefixes. *)
Example comment_line_dropped :
  remove_header_lines (ten_empty_lines +:+ search_term_comment two_line_term)
  = ten_empty_lines +:+ NL +:+ comment_open +:+ "t" +:+ NL +:+ closing_tag.
Proof. by vm_compute. Qed.

(** Header lines after the tenth line are dropped, those before are
    not. *)
Example header_lines_dropped :
  remove_header_lines (sample_stream +:+ NL)
  = cat [ "<?xml version=1.0 ?>" +:+ NL;
          "<!DOCTYPE PubmedArticleSet PUBLIC>" +:+ NL;
          "<PubmedArticleSet>" +:+ NL;
          "<PubmedArticle>" +:+ NL;
          "<PMID>1</PMID>" +:+ NL;
          "<Article>" +:+ NL;
          "<ArticleTitle>One</ArticleTitle>" +:+ NL;
          "</Article>" +:+ NL;
          "</PubmedArticle>" +:+ NL;
          NL;
          "<PubmedArticle><PMID>2</PMID></PubmedArticle>" +:+ NL;
          "<!--Generated by PubMed search term: crispr-->" +:+ NL;
          "</PubmedArticleSet>" +:+ NL ].
Proof. by vm_compute. Qed.

(** C6, as amended: on a raw stream without carriage returns the cleaned
    file is what the specification describes: the first 10 lines of the
    stream as they are, then, in order, exactly those of the remaining
    lines that start with none of ["<?xml version"],
    ["<!DOCTYPE PubmedArticleSet PUBLIC"], ["<PubmedArticleSet"] and
    ["</PubmedArticleSet"], then one closing tag.  When the search term has
    no line break, its comment starts with none of the four and is copied
    as it is, right before the closing tag. *)
Theorem header_lines_removed (raw : string) :
  no_cr raw = true ->
  remove_header_lines raw = normalized_as_specified raw /\
  (forall line : string,
     artifact line = true <->
     exists rest : string,
       line = "<?xml version" +:+ rest \/
       line = "<!DOCTYPE PubmedArticleSet PUBLIC" +:+ rest \/
       line = "<PubmedArticleSet" +:+ rest \/
       line = "</PubmedArticleSet" +:+ rest) /\
  (forall downloaded search_term : string,
     no_line_break search_term = true ->
     artifact ("<!--Generated by PubMed search term: " +:+ search_term
               +:+ "-->" +:+ NL) = false /\
     exists body : string,
       remove_header_lines (downloaded +:+ search_term_comment search_term)
       = body +:+ "<!--Generated by PubMed search term: " +:+ search_term
              +:+ "-->" +:+ NL +:+ "</PubmedArticleSet>" +:+ NL).
Proof.
  intros Hraw. split; [by apply remove_header_lines_as_specified |].
  split.
  - intros line. unfold artifact. rewrite !orb_true_iff, !prefix_append.
    split.
    + intros [[[[r H] | [r H]] | [r H]] | [r H]]; exists r; tauto.
    + intros [r [H | [H | [H | H]]]]; eauto 6.
  - intros downloaded search_term Ht. split; [reflexivity |].
    destruct (comment_before_closing_tag downloaded search_term Ht)
      as [body Hbody].
    exists body. rewrite Hbody. unfold comment_line, comment_open, closing_tag.
    by rewrite !append_assoc.
Qed.

Lemma header_lines_removed_witness :
  remove_header_lines (sample_stream +:+ NL)
  = normalized_as_specified (sample_stream +:+ NL) /\
  exists body : string,
    remove_header_lines (batch_text 0 +:+ search_term_comment "crispr")
    = body +:+ "<!--Generated by PubMed search term: " +:+ "crispr"
           +:+ "-->" +:+ NL +:+ "</PubmedArticleSet>" +:+ NL.
Proof.
  destruct (header_lines_removed (sample_stream +:+ NL) eq_refl)
    as (Hspec & _ & Hcomment).
  split; [exact Hspec |].
  exact (proj2 (Hcomment (batch_text 0) "crispr" eq_refl)).
Defined.

(** * A whole run *)

(** Five records in batches of two, every call returning: the texts of the
    three windows, the search-term comment and the closing tag. *)
Example whole_run :
  get_clean_xml steady_service "crispr" "me@example.org" (PyStr "key") 2
                initial_world
  = Ok tt
       {| trace :=
            [ EvSearch "crispr" 50000 true;
              EvSearch "crispr" 5 false;
              EvPrint (MsgRecords 5 "crispr");
              EvPost "11,12,13,14,15";
              EvPrint (MsgDownload 1 2);
              EvFetch 0 2 (PyStr "W") (PyStr "1") (PyStr "key");
              EvFetch 0 2 (PyStr "W") (PyStr "1") (PyStr "key");
              EvFetch 0 2 (PyStr "W") (PyStr "1") (PyStr "key");
              EvWrite (batch_text 0);
              EvPrint (MsgDownload 3 4);
              EvFetch 2 2 (PyStr "W") (PyStr "1") (PyStr "key");
              EvFetch 2 2 (PyStr "W") (PyStr "1") (PyStr "key");
              EvFetch 2 2 (PyStr "W") (PyStr "1") (PyStr "key");
              EvWrite (batch_text 2);
              EvPrint (MsgDownload 5 5);
              EvFetch 4 2 (PyStr "W") (PyStr "1") (PyStr "key");
              EvFetch 4 2 (PyStr "W") (PyStr "1") (PyStr "key");
              EvFetch 4 2 (PyStr "W") (PyStr "1") (PyStr "key");
              EvWrite (batch_text 4);
              EvWrite (search_term_comment "crispr") ];
          file_batched := None;
          file_cleaned :=
            Some (batch_text 0 +:+ batch_text 2 +:+ batch_text 4
                  +:+ search_term_comment "crispr" +:+ closing_tag) |}.
Proof. by vm_compute. Qed.

(** * Further properties of get_clean_xml *)

(** ** What every run adds to the trace and does to the files *)

Section obeys.

#[local] Set Default Proof Using "All".

Variable P : event -> Prop.
Variable R : world -> world -> Prop.
Hypothesis R_refl : forall w, R w w.
Hypothesis R_trans : forall w1 w2 w3, R w1 w2 -> R w2 w3 -> R w1 w3.
Hypothesis R_events : forall w evs, R w (add_events w evs).
Hypothesis R_write :
  forall w data,
    R w {| trace := trace w ++ [EvWrite data];
           file_batched := Some (default "" (file_batched w) +:+ data);
           file_cleaned := file_cleaned w |}.
Hypothesis R_open :
  forall w,
    R w {| trace := trace w; file_batched := Some "";
           file_cleaned := file_cleaned w |}.

Lemma obeys_ret {A} (a : A) : obeys P R (mret a).
Proof.
  intros w. split; [| apply R_refl]. exists []. by rewrite app_nil_r.
Qed.

Lemma obeys_raise {A} (e : exn) : obeys P R (raise e : M A).
Proof.
  intros w. split; [| apply R_refl]. exists []. by rewrite app_nil_r.
Qed.

Lemma obeys_bind {A B} (m : M A) (f : A -> M B) :
  obeys P R m -> (forall a, obeys P R (f a)) -> obeys P R (m ≫= f).
Proof.
  intros Hm Hf w. destruct (Hm w) as [(evs & Ht & HP) HR].
  unfold mbind, M_bind. destruct (m w) as [a w1 | e w1]; cbn in *.
  - destruct (Hf a w1) as [(evs' & Ht' & HP') HR'].
    split; [| by eapply R_trans].
    exists (evs ++ evs')%list. split; [| by apply Forall_app].
    by rewrite Ht', Ht, app_assoc.
  - split; [| done]. by exists evs.
Qed.

Lemma obeys_bind_ok {A B} (m : M A) (f : A -> M B) :
  obeys P R m ->
  (forall a w w', m w = Ok a w' -> obeys P R (f a)) ->
  obeys P R (m ≫= f).
Proof.
  intros Hm Hf w. destruct (Hm w) as [(evs & Ht & HP) HR].
  unfold mbind, M_bind. destruct (m w) as [a w1 | e w1] eqn:Hmw; cbn in *.
  - destruct (Hf a w w1 Hmw w1) as [(evs' & Ht' & HP') HR'].
    split; [| by eapply R_trans].
    exists (evs ++ evs')%list. split; [| by apply Forall_app].
    by rewrite Ht', Ht, app_assoc.
  - split; [| done]. by exists evs.
Qed.

Lemma obeys_log (ev : event) : P ev -> obeys P R (log ev).
Proof.
  intros Hev w. split; [| apply (R_events w [ev])].
  exists [ev]. split; [done |]. by apply Forall_cons.
Qed.

Lemma obeys_call {A} (r : reply A) : obeys P R (call r).
Proof. destruct r; [apply obeys_ret | apply obeys_raise]. Qed.

Lemma obeys_getitem (record : gmap string pyval) (key : string) :
  obeys P R (getitem record key).
Proof.
  unfold getitem. destruct (record !! key); [apply obeys_ret | apply obeys_raise].
Qed.

Lemma obeys_py_int (v : pyval) : obeys P R (py_int v).
Proof.
  destruct v as [| s | z | l]; cbn [py_int];
    try apply obeys_raise; try apply obeys_ret.
  destruct (read_int s); [apply obeys_ret | apply obeys_raise ..].
Qed.

Lemma obeys_py_len (v : pyval) : obeys P R (py_len v).
Proof. destruct v; cbn [py_len]; (apply obeys_raise || apply obeys_ret). Qed.

Lemma obeys_py_join (v : pyval) : obeys P R (py_join v).
Proof.
  destruct v as [| s | z | l]; cbn [py_join];
    try apply obeys_raise; try apply obeys_ret.
  destruct (str_items l); [apply obeys_ret | apply obeys_raise].
Qed.

Lemma obeys_py_assert (b : bool) : obeys P R (py_assert b).
Proof. destruct b; [apply obeys_ret | apply obeys_raise]. Qed.

Lemma obeys_py_range (start stop step : Z) :
  obeys P R (py_range start stop step).
Proof.
  unfold py_range. destruct (step =? 0); [apply obeys_raise | apply obeys_ret].
Qed.

Lemma obeys_load_name (G : list string) (x : string) :
  obeys P R (load_name G x).
Proof.
  unfold load_name. destruct (name_bound G x);
    [apply obeys_ret | apply obeys_raise].
Qed.

Lemma obeys_handle_read (h : handle) : obeys P R (handle_read h).
Proof.
  unfold handle_read. destruct (h_closed h);
    [apply obeys_raise | apply obeys_ret].
Qed.

Lemma obeys_write_batched (data : string) :
  P (EvWrite data) -> obeys P R (write_batched data).
Proof.
  intros Hev w. split; [| apply R_write].
  exists [EvWrite data]. split; [done |]. by apply Forall_cons.
Qed.

Lemma obeys_open_w_batched : obeys P R open_w_batched.
Proof.
  intros w. split; [| apply R_open]. exists []. by rewrite app_nil_r.
Qed.

Lemma obeys_for_each {A S} (body : S -> A -> M S) (l : list A) (s : S) :
  (forall s x, obeys P R (body s x)) -> obeys P R (for_each body l s).
Proof.
  intros Hbody. revert s. induction l as [|x l IH]; intros s.
  - apply obeys_ret.
  - cbn [for_each]. apply obeys_bind; [apply Hbody | intros s'; apply IH].
Qed.

Hypothesis P_other : forall ev, is_fetch ev = false -> P ev.

Lemma obeys_except_HTTPError (G : list string) (err : exn) (attempt : Z) :
  obeys P R (except_HTTPError G err attempt).
Proof.
  unfold except_HTTPError.
  apply obeys_bind; [apply obeys_load_name | intros _].
  destruct err; try apply obeys_raise.
  destruct ((500 <=? code) && (code <=? 599)); [| apply obeys_raise].
  apply obeys_bind; [by apply obeys_log, P_other | intros _].
  apply obeys_bind; [by apply obeys_log, P_other | intros _].
  apply obeys_bind; [apply obeys_load_name | intros _].
  by apply obeys_log, P_other.
Qed.

Lemma obeys_open_session (srv : EntrezService) (search_term : string) :
  obeys P R (open_session srv search_term).
Proof.
  unfold open_session.
  repeat first
    [ apply obeys_ret
    | apply obeys_bind; [| intros ?]
    | apply obeys_call | apply obeys_getitem | apply obeys_py_int
    | apply obeys_py_len | apply obeys_py_assert | apply obeys_py_join
    | by apply obeys_log, P_other ].
Qed.

Section requests.

Variables (G : list string) (srv : EntrezService).
Variables (count bs : Z) (we qk ak : pyval).
Hypothesis P_fetch : forall start, P (EvFetch start bs we qk ak).

Lemma obeys_attempts (fuel : nat) (start attempt : Z) (fh : option handle) :
  obeys P R (attempts G srv bs we qk ak fuel start attempt fh).
Proof.
  revert attempt fh. induction fuel as [|fuel IH]; intros attempt fh.
  - cbn [attempts]. destruct (attempt <? 3); apply obeys_ret.
  - rewrite attempts_S. destruct (attempt <? 3); [| apply obeys_ret].
    apply obeys_bind; [apply obeys_log, P_fetch | intros _].
    destruct (efetch srv start bs we qk ak (attempt + 1)); [apply IH |].
    apply obeys_bind; [apply obeys_except_HTTPError | intros _; apply IH].
Qed.

Lemma obeys_download_window (fh : option handle) (start : Z) :
  obeys P R (download_window G srv count bs we qk ak fh start).
Proof.
  unfold download_window.
  apply obeys_bind; [by apply obeys_log, P_other | intros _].
  apply obeys_bind; [apply obeys_attempts | intros fh'].
  apply obeys_bind; [destruct fh'; [apply obeys_ret | apply obeys_raise] |].
  intros h. apply obeys_bind; [apply obeys_handle_read | intros data].
  apply obeys_bind; [by apply obeys_write_batched, P_other | intros _].
  apply obeys_ret.
Qed.

Lemma obeys_download_batches :
  obeys P R (download_batches G srv count bs we qk ak).
Proof.
  unfold download_batches.
  apply obeys_bind; [apply obeys_open_w_batched | intros _].
  apply obeys_bind; [apply obeys_py_range | intros starts].
  apply obeys_bind; [| intros _; apply obeys_ret].
  apply obeys_for_each. intros s x. apply obeys_download_window.
Qed.

End requests.

End obeys.

#[local] Set Default Proof Using "Type".

(** A computation that leaves the trace alone adds no event. *)
Lemma obeys_silent {A} (P : event -> Prop) (m : M A) :
  (forall w, trace (final_world (m w)) = trace w) ->
  obeys P (fun _ _ => True) m.
Proof.
  intros Hm w. split; [| done]. exists []. by rewrite Hm, app_nil_r.
Qed.

Lemma batched_kept_trans (w1 w2 w3 : world) :
  batched_kept w1 w2 -> batched_kept w2 w3 -> batched_kept w1 w3.
Proof.
  intros [Hc1 Hb1] [Hc2 Hb2]. split; [congruence | auto].
Qed.

Lemma bind_Ok_inv {A B} (m : M A) (f : A -> M B) (w w' : world) (b : B) :
  (m ≫= f) w = Ok b w' ->
  exists (a : A) (w1 : world), m w = Ok a w1 /\ f a w1 = Ok b w'.
Proof.
  unfold mbind, M_bind. destruct (m w) as [a w1 | e w1]; [| done].
  intros H. by exists a, w1.
Qed.

(** The tokens that setting up the session returns are those of the reply
    to a post. *)
Lemma open_session_tokens (srv : EntrezService) (search_term : string)
    (w w' : world) (count : Z) (webenv query_key : pyval) :
  open_session srv search_term w = Ok (count, webenv, query_key) w' ->
  exists (ids : string) (posted : gmap string pyval),
    epost srv ids = Returns posted /\
    posted !! "WebEnv" = Some webenv /\
    posted !! "QueryKey" = Some query_key.
Proof.
  unfold open_session. intros H.
  do 14 (apply bind_Ok_inv in H as (? & ? & _ & H)).
  apply bind_Ok_inv in H as (posted & w1 & Hpost & H).
  apply bind_Ok_inv in H as (webenv' & w2 & Hwe & H).
  apply bind_Ok_inv in H as (query_key' & w3 & Hqk & H).
  unfold mret, M_ret in H. injection H as -> -> -> ->.
  match type of Hpost with call (epost srv ?i) _ = _ => exists i, posted end.
  unfold call in Hpost. unfold getitem in Hwe, Hqk.
  destruct (epost srv _) as [posted' |]; [| done].
  unfold mret, M_ret in Hpost. injection Hpost as -> ->.
  destruct (posted !! "WebEnv") as [v1 |] eqn:E1; [| done].
  unfold mret, M_ret in Hwe. injection Hwe as -> ->.
  destruct (posted !! "QueryKey") as [v2 |] eqn:E2; [| done].
  unfold mret, M_ret in Hqk. by injection Hqk as -> ->.
Qed.

(** X1: whatever the service answers and whatever names are bound, a run
    that raises leaves the cleaned file as it was and never removes the
    temporary batched file; a run that returns has removed the batched file
    and written the cleaned file. *)
Theorem files_after_a_run (G : list string) (srv : EntrezService)
    (search_term pubmed_user : string) (pubmed_key : pyval) (batch_size : Z)
    (w : world) :
  match get_clean_xml_in G srv search_term pubmed_user pubmed_key
                         batch_size w with
  | Ok _ w' => file_batched w' = None /\ is_Some (file_cleaned w')
  | Raise _ w' =>
      is_Some (file_batched w') /\ file_cleaned w' = file_cleaned w
  end.
Proof.
  assert (forall w1 evs, batched_kept w1 (add_events w1 evs)) as Hev by done.
  assert (forall w1 data,
            batched_kept w1
              {| trace := trace w1 ++ [EvWrite data];
                 file_batched := Some (default "" (file_batched w1) +:+ data);
                 file_cleaned := file_cleaned w1 |}) as Hwr.
  { intros w1 data. split; [done |]. intros _. by eexists. }
  assert (forall w1,
            batched_kept w1 {| trace := trace w1; file_batched := Some "";
                               file_cleaned := file_cleaned w1 |}) as Hop.
  { intros w1. split; [done |]. intros _. by eexists. }
  assert (forall w1, batched_kept w1 w1) as Hrefl by done.
  unfold get_clean_xml_in, mbind, M_bind.
  set (w0 := {| trace := trace w; file_batched := Some "";
                file_cleaned := file_cleaned w |}).
  change (create_batched w) with (Ok tt w0).
  destruct (obeys_open_session (fun _ => True) batched_kept Hrefl
              batched_kept_trans Hev Hwr Hop (fun _ _ => I) srv search_term w0)
    as [_ [Hc1 Hb1]].
  destruct (open_session srv search_term w0)
    as [[[count webenv] query_key] w1 | e w1]; cbn in Hc1, Hb1.
  2:{ split; [by apply Hb1 | done]. }
  destruct (obeys_download_batches (fun _ => True) batched_kept Hrefl
              batched_kept_trans Hev Hwr Hop (fun _ _ => I) G srv count
              batch_size webenv query_key pubmed_key (fun _ => I) w1)
    as [_ [Hc2 Hb2]].
  destruct (download_batches G srv count batch_size webenv query_key
              pubmed_key w1) as [[] w2 | e w2]; cbn in Hc2, Hb2.
  2:{ split; [by apply Hb2, Hb1 | congruence]. }
  cbn. split; [done | by eexists].
Qed.

(** X2: in every run, each request for a window asks for [batch_size]
    records with the caller's key, in the session that the reply to the
    post opened; the tokens of the first search are never used. *)
Theorem requests_use_posted_session (G : list string) (srv : EntrezService)
    (search_term pubmed_user : string) (pubmed_key : pyval) (batch_size : Z)
    (w : world) :
  exists evs : list event,
    trace (final_world (get_clean_xml_in G srv search_term pubmed_user
                                         pubmed_key batch_size w))
    = (trace w ++ evs)%list /\
    Forall (fetch_of_session srv batch_size pubmed_key) evs.
Proof.
  set (P := fetch_of_session srv batch_size pubmed_key).
  set (R := fun _ _ : world => True).
  assert (forall ev, is_fetch ev = false -> P ev) as Hother
    by (by intros []).
  assert (obeys P R (get_clean_xml_in G srv search_term pubmed_user
                                      pubmed_key batch_size)) as H.
  { unfold get_clean_xml_in.
    apply obeys_bind; try done; [by apply obeys_silent | intros _].
    apply obeys_bind_ok; try done; [by apply obeys_open_session |].
    intros [[count webenv] query_key] w1 w2 Hsession.
    apply open_session_tokens in Hsession as (ids & posted & Hp & Hw & Hq).
    apply obeys_bind; try done.
    { apply obeys_download_batches; try done.
      intros start. cbn. split; [done |]. split; [done |]. eauto. }
    intros _. apply obeys_bind; try done.
    { by apply obeys_write_batched. }
    intros _. apply obeys_bind; try done.
    { apply obeys_silent. intros w'. unfold read_batched.
      by destruct (file_batched w'). }
    intros batched. apply obeys_bind; try done; [by apply obeys_silent |].
    intros _. by apply obeys_silent. }
  destruct (H w) as [Hevs _]. exact Hevs.
Qed.

(** ** Runs with a session that can be set up *)

Lemma open_session_ok (srv : EntrezService) (search_term : string)
    (count : Z) (ids : string) (webenv query_key : pyval) (w : world) :
  session_replies srv search_term count ids webenv query_key ->
  open_session srv search_term w
  = Ok (count, webenv, query_key)
       (add_events w (session_events search_term count ids)).
Proof.
  intros (record & s & webenv0 & query_key0 & record2 & id_list & ss & posted
          & H1 & H2 & H3 & H4 & H5 & H6 & H7 & H8 & H9 & H10 & H11 & H12
          & H13).
  unfold open_session. run. rewrite H1. run. rewrite H2. run.
  unfold py_int. rewrite (parse_int_read _ _ H3). run. rewrite H4, H5. run.
  rewrite H6. run. rewrite H7. run.
  destruct (Z.eqb_spec count (Z.of_nat (List.length id_list))); [| done].
  run. rewrite H9. run. rewrite <- H10, H11. run. rewrite H12, H13.
  unfold add_events, session_events. cbn. by rewrite <- !app_assoc.
Qed.

Lemma session_replies_count (srv : EntrezService) (search_term : string)
    (count : Z) (ids : string) (webenv query_key : pyval) :
  session_replies srv search_term count ids webenv query_key -> 0 <= count.
Proof.
  intros (record & s & webenv0 & query_key0 & record2 & id_list & ss & posted
          & _ & _ & _ & _ & _ & _ & _ & -> & _).
  lia.
Qed.

Lemma steady_session :
  session_replies steady_service "crispr" 5 "11,12,13,14,15"
                  (PyStr "W") (PyStr "1").
Proof.
  exists sample_record, "5", (PyStr "W"), (PyStr "1"), sample_record,
    [PyStr "11"; PyStr "12"; PyStr "13"; PyStr "14"; PyStr "15"],
    ["11"; "12"; "13"; "14"; "15"], sample_record.
  repeat split; reflexivity.
Qed.

(** X3: with a batch size of 0 the function sets up the session, with its
    two searches and its post, and only then ends with the [ValueError] of
    [range]; no window is requested and the empty batched file stays. *)
Theorem zero_batch_size (G : list string) (srv : EntrezService)
    (search_term pubmed_user : string) (pubmed_key : pyval) (w : world)
    (count : Z) (ids : string) (webenv query_key : pyval) :
  session_replies srv search_term count ids webenv query_key ->
  get_clean_xml_in G srv search_term pubmed_user pubmed_key 0 w
  = Raise (ValueError "range() arg 3 must not be zero")
          {| trace := trace w ++ session_events search_term count ids;
             file_batched := Some "";
             file_cleaned := file_cleaned w |}.
Proof.
  intros Hs. unfold get_clean_xml_in. cbv zeta.
  erewrite bind_Ok by reflexivity.
  erewrite bind_Ok by by apply open_session_ok.
  cbv beta iota.
  erewrite bind_Raise; [reflexivity |].
  unfold download_batches. erewrite bind_Ok by reflexivity.
  erewrite bind_Raise; reflexivity.
Qed.

Lemma zero_batch_size_witness :
  get_clean_xml_in module_globals steady_service "crispr" "me@example.org"
                   (PyStr "key") 0 initial_world
  = Raise (ValueError "range() arg 3 must not be zero")
          {| trace := trace initial_world
                      ++ session_events "crispr" 5 "11,12,13,14,15";
             file_batched := Some "";
             file_cleaned := file_cleaned initial_world |}.
Proof.
  apply (zero_batch_size module_globals steady_service "crispr"
           "me@example.org" (PyStr "key") initial_world 5 "11,12,13,14,15"
           (PyStr "W") (PyStr "1")).
  exact steady_session.
Defined.

Lemma no_window (count bs : Z) :
  0 <= count -> bs < 0 \/ (count = 0 /\ bs <> 0) ->
  window_starts count bs = [].
Proof.
  intros Hc Hb. unfold window_starts, range_length.
  destruct (Z.ltb_spec 0 bs), (Z.ltb_spec 0 count), (Z.ltb_spec count 0);
    try lia; reflexivity.
Qed.

Lemma py_range_window_starts (count bs : Z) (w : world) :
  bs <> 0 -> py_range 0 count bs w = Ok (window_starts count bs) w.
Proof.
  intros Hbs. unfold py_range, window_starts.
  by destruct (Z.eqb_spec bs 0).
Qed.

(** X4: with a negative batch size, or with a count of 0, there is no
    window: the run requests nothing and returns, and the cleaned file is
    what the header removal makes of the search-term comment alone. *)
Theorem run_without_windows (G : list string) (srv : EntrezService)
    (search_term pubmed_user : string) (pubmed_key : pyval) (batch_size : Z)
    (w : world) (count : Z) (ids : string) (webenv query_key : pyval) :
  session_replies srv search_term count ids webenv query_key ->
  batch_size < 0 \/ (count = 0 /\ batch_size <> 0) ->
  get_clean_xml_in G srv search_term pubmed_user pubmed_key batch_size w
  = Ok tt
       {| trace := trace w ++ session_events search_term count ids
                   ++ [EvWrite (search_term_comment search_term)];
          file_batched := None;
          file_cleaned :=
            Some (remove_header_lines (search_term_comment search_term)) |}.
Proof.
  intros Hs Hb. pose proof (session_replies_count _ _ _ _ _ _ Hs) as Hc.
  unfold get_clean_xml_in. cbv zeta.
  erewrite bind_Ok by reflexivity.
  erewrite bind_Ok by by apply open_session_ok.
  cbv beta iota.
  erewrite bind_Ok.
  2:{ unfold download_batches. erewrite bind_Ok by reflexivity.
      erewrite bind_Ok by (apply py_range_window_starts; lia).
      rewrite no_window by done. reflexivity. }
  run. by rewrite <- !app_assoc.
Qed.

Lemma run_without_windows_witness :
  get_clean_xml_in module_globals steady_service "crispr" "me@example.org"
                   (PyStr "key") (-1) initial_world
  = Ok tt
       {| trace := trace initial_world
                   ++ session_events "crispr" 5 "11,12,13,14,15"
                   ++ [EvWrite (search_term_comment "crispr")];
          file_batched := None;
          file_cleaned :=
            Some (remove_header_lines (search_term_comment "crispr")) |}.
Proof.
  apply (run_without_windows module_globals steady_service "crispr"
           "me@example.org" (PyStr "key") (-1) initial_world 5
           "11,12,13,14,15" (PyStr "W") (PyStr "1")).
  - exact steady_session.
  - left. lia.
Defined.

(** X5: when the session can be set up, the batch size is positive and
    every call for every window returns, the run returns: after the
    session events come the windows in order and the write of the comment,
    the batched file is gone, and the cleaned file is the header removal
    applied to the written replies followed by the search-term comment. *)
Theorem complete_run (G : list string) (srv : EntrezService)
    (search_term pubmed_user : string) (pubmed_key : pyval) (batch_size : Z)
    (w : world) (count : Z) (ids : string) (webenv query_key : pyval) :
  session_replies srv search_term count ids webenv query_key ->
  0 < batch_size ->
  forallb (window_ok srv batch_size webenv query_key pubmed_key)
          (window_starts count batch_size) = true ->
  get_clean_xml_in G srv search_term pubmed_user pubmed_key batch_size w
  = Ok tt
       {| trace :=
            trace w ++ session_events search_term count ids
            ++ List.flat_map
                 (window_events srv count batch_size webenv query_key
                                pubmed_key)
                 (window_starts count batch_size)
            ++ [EvWrite (search_term_comment search_term)];
          file_batched := None;
          file_cleaned :=
            Some (remove_header_lines
                    (cat (List.map (data3 srv batch_size webenv query_key
                                          pubmed_key)
                                   (window_starts count batch_size))
                     +:+ search_term_comment search_term)) |}.
Proof.
  intros Hs Hbs Hok. unfold get_clean_xml_in. cbv zeta.
  erewrite bind_Ok by reflexivity.
  erewrite bind_Ok by by apply open_session_ok.
  cbv beta iota.
  set (w1 := add_events _ _).
  destruct (windows_success srv count batch_size webenv query_key pubmed_key
              G (window_starts count batch_size) None (opened w1) ""
              eq_refl Hok) as [fh' Hrun].
  erewrite bind_Ok.
  2:{ rewrite download_batches_eq by done. by rewrite Hrun. }
  run. by rewrite <- !app_assoc.
Qed.

Lemma complete_run_witness :
  get_clean_xml_in module_globals steady_service "crispr" "me@example.org"
                   (PyStr "key") 2 initial_world
  = Ok tt
       {| trace :=
            trace initial_world
            ++ session_events "crispr" 5 "11,12,13,14,15"
            ++ List.flat_map
                 (window_events steady_service 5 2 (PyStr "W") (PyStr "1")
                                (PyStr "key"))
                 (window_starts 5 2)
            ++ [EvWrite (search_term_comment "crispr")];
          file_batched := None;
          file_cleaned :=
            Some (remove_header_lines
                    (cat (List.map (data3 steady_service 2 (PyStr "W")
                                          (PyStr "1") (PyStr "key"))
                                   (window_starts 5 2))
                     +:+ search_term_comment "crispr")) |}.
Proof.
  apply (complete_run module_globals steady_service "crispr"
           "me@example.org" (PyStr "key") 2 initial_world 5
           "11,12,13,14,15" (PyStr "W") (PyStr "1")).
  - exact steady_session.
  - lia.
  - reflexivity.
Defined.

(** ** Number of requests *)

Lemma fetches_of_window (srv : EntrezService) (count bs : Z)
    (we qk ak : pyval) (start x : Z) :
  List.length (List.filter (is_fetch_of start)
                 (window_events srv count bs we qk ak x))
  = if x =? start then 3%nat else 0%nat.
Proof.
  unfold window_events, fetch_ev, print_ev.
  cbn [List.filter is_fetch_of]. by destruct (x =? start).
Qed.

Lemma fetches_of_windows (srv : EntrezService) (count bs : Z)
    (we qk ak : pyval) (start : Z) (l : list Z) :
  List.length (List.filter (is_fetch_of start)
                 (List.flat_map (window_events srv count bs we qk ak) l))
  = (3 * count_occ Z.eq_dec l start)%nat.
Proof.
  induction l as [|x l IH]; [done |].
  cbn [List.flat_map count_occ].
  rewrite List.filter_app, length_app, IH, fetches_of_window.
  destruct (Z.eqb_spec x start) as [-> | Hne]; destruct (Z.eq_dec _ _); lia.
Qed.

Lemma fetches_of_repeat (bs : Z) (we qk ak : pyval) (start x : Z) (k : nat) :
  List.length (List.filter (is_fetch_of start)
                 (repeat (fetch_ev bs we qk ak x) k))
  = if x =? start then k else 0%nat.
Proof.
  induction k as [|k IH]; [by destruct (x =? start) |].
  cbn [repeat List.filter fetch_ev is_fetch_of]. fold (fetch_ev bs we qk ak x).
  destruct (x =? start); cbn [List.length]; by rewrite ?IH.
Qed.

Lemma window_starts_once (count bs start : Z) :
  0 < bs -> (count_occ Z.eq_dec (window_starts count bs) start <= 1)%nat.
Proof.
  intros Hbs. unfold window_starts.
  enough (forall n a : nat,
            (count_occ Z.eq_dec
               (List.map (fun i => (Z.of_nat i * bs)%Z) (seq a n)) start
             <= 1)%nat) as H by apply H.
  induction n as [|n IH]; intros a; [cbn; lia |].
  cbn [seq List.map count_occ].
  destruct (Z.eq_dec (Z.of_nat a * bs) start) as [<- | _]; [| apply IH].
  enough (count_occ Z.eq_dec
            (List.map (fun i => Z.of_nat i * bs) (seq (S a) n))
            (Z.of_nat a * bs) = 0%nat) as -> by lia.
  apply count_occ_not_In. intros Hin.
  apply in_map_iff in Hin as (i & Heq & Hi). apply in_seq in Hi. nia.
Qed.

(** X6: for a positive batch size and whatever the service answers, the
    download loop of the module as written makes at most three requests for
    any one window start and none for a start outside
    [range(0, count, batch_size)]; when every call returns it makes exactly
    three for each start of the range. *)
Theorem three_requests_per_window (srv : EntrezService) (count bs : Z)
    (we qk ak : pyval) (w : world) :
  0 < bs ->
  exists evs : list event,
    trace (final_world
             (download_batches module_globals srv count bs we qk ak w))
    = (trace w ++ evs)%list /\
    forall start : Z,
      (List.length (List.filter (is_fetch_of start) evs) <= 3)%nat /\
      (~ In start (window_starts count bs) ->
       List.length (List.filter (is_fetch_of start) evs) = 0%nat) /\
      (forallb (window_ok srv bs we qk ak) (window_starts count bs) = true ->
       In start (window_starts count bs) ->
       List.length (List.filter (is_fetch_of start) evs) = 3%nat).
Proof.
  intros Hbs. rewrite download_batches_eq by done.
  destruct (windows_run srv count bs we qk ak (window_starts count bs) None
              (opened w) "" eq_refl)
    as [[Hall [fh' Hrun]] | (pre & s & post & k & Hl & Hpre & Hs & Hk & Hrun)];
    rewrite Hrun; cbn.
  - eexists. split; [reflexivity |]. intros start.
    rewrite fetches_of_windows.
    pose proof (window_starts_once count bs start Hbs) as Honce.
    split; [lia |]. split.
    + intros Hout. apply (count_occ_not_In Z.eq_dec) in Hout. lia.
    + intros _ Hin. apply (count_occ_In Z.eq_dec) in Hin. lia.
  - exists (List.flat_map (window_events srv count bs we qk ak) pre
            ++ print_ev count bs s :: repeat (fetch_ev bs we qk ak s) k)%list.
    split; [by rewrite app_assoc |]. intros start.
    rewrite List.filter_app, length_app, fetches_of_windows.
    cbn [List.filter print_ev is_fetch_of]. rewrite fetches_of_repeat.
    pose proof (window_starts_once count bs start Hbs) as Honce.
    rewrite Hl, count_occ_app in Honce. cbn [count_occ] in Honce.
    split; [| split].
    + destruct (Z.eqb_spec s start) as [-> | Hne];
        destruct (Z.eq_dec _ _); lia.
    + intros Hout. apply (count_occ_not_In Z.eq_dec) in Hout.
      rewrite Hl, count_occ_app in Hout. cbn [count_occ] in Hout.
      destruct (Z.eqb_spec s start) as [-> | Hne];
        destruct (Z.eq_dec _ _); lia.
    + intros Hall. rewrite Hl, forallb_app in Hall.
      cbn [forallb] in Hall. rewrite Hs in Hall.
      by rewrite andb_false_r in Hall.
Qed.

Lemma three_requests_per_window_witness :
  exists evs : list event,
    trace (final_world
             (download_batches module_globals steady_service 5 2
                (PyStr "W") (PyStr "1") (PyStr "key") initial_world))
    = (trace initial_world ++ evs)%list /\
    List.length (List.filter (is_fetch_of 2) evs) = 3%nat /\
    List.length (List.filter (is_fetch_of 3) evs) = 0%nat.
Proof.
  destruct (three_requests_per_window steady_service 5 2 (PyStr "W")
              (PyStr "1") (PyStr "key") initial_world) as [evs [Ht Hn]];
    [lia |].
  exists evs. split; [exact Ht |]. split.
  - apply (Hn 2); [reflexivity |]. vm_compute. tauto.
  - apply (Hn 3). vm_compute. intros [H | [H | [H | []]]]; discriminate H.
Defined.

(** A run that stops in the second window: three requests for the first
    start, one for the second, none for the third. *)
Example requests_of_a_stopped_run :
  List.map (fun start =>
              List.length
                (List.filter (is_fetch_of start)
                   (trace (final_world
                             (download_batches module_globals
                                stops_at_2_service 5 2 (PyStr "W")
                                (PyStr "1") (PyStr "key") initial_world)))))
           [0; 2; 4]
  = [3; 1; 0]%nat.
Proof. by vm_compute. Qed.

(** ** The windows cover the records *)

Lemma window_starts_In (count bs start : Z) :
  0 <= count -> 0 < bs ->
  (In start (window_starts count bs)
   <-> exists i : Z, start = i * bs /\ 0 <= i /\ i * bs < count).
Proof.
  intros Hc Hbs. unfold window_starts. rewrite range_length_ceil by done.
  pose proof (Z.mul_div_le (count + bs - 1) bs Hbs) as Hle.
  pose proof (Z.mul_succ_div_gt (count + bs - 1) bs Hbs) as Hgt.
  assert (0 <= (count + bs - 1) / bs) as Hn by (apply Z.div_pos; lia).
  set (N := (count + bs - 1) / bs) in *.
  rewrite in_map_iff. split.
  - intros (i & <- & Hi). apply in_seq in Hi. exists (Z.of_nat i).
    split; [done |]. split; [lia |]. nia.
  - intros (i & -> & Hi0 & Hi). exists (Z.to_nat i).
    split; [by rewrite Z2Nat.id |]. apply in_seq. nia.
Qed.

(** X7: for a count of at least 0 and a positive batch size, every record
    index below the count lies in the window of exactly one start of
    [range(0, count, batch_size)]. *)
Theorem every_record_in_one_window (count bs k : Z) :
  0 < bs -> 0 <= k < count ->
  exists start : Z,
    In start (window_starts count bs) /\
    start <= k < Z.min count (start + bs) /\
    forall start' : Z,
      In start' (window_starts count bs) ->
      start' <= k < Z.min count (start' + bs) -> start' = start.
Proof.
  intros Hbs Hk.
  pose proof (Z.mul_div_le k bs Hbs) as Hle.
  pose proof (Z.mul_succ_div_gt k bs Hbs) as Hgt.
  assert (0 <= k / bs) as Hq by (apply Z.div_pos; lia).
  exists (k / bs * bs). split; [| split].
  - apply window_starts_In; [lia | done |]. exists (k / bs). lia.
  - lia.
  - intros start' Hin Hwin.
    apply window_starts_In in Hin as (i & -> & Hi0 & Hi); [| lia | done].
    f_equal. apply (Z.div_unique k bs i (k - i * bs)); lia.
Qed.

Lemma every_record_in_one_window_witness :
  exists start : Z,
    In start (window_starts 5 2) /\
    start <= 4 < Z.min 5 (start + 2) /\
    forall start' : Z,
      In start' (window_starts 5 2) ->
      start' <= 4 < Z.min 5 (start' + 2) -> start' = start.
Proof.
  apply (every_record_in_one_window 5 2 4); lia.
Defined.

(** ** The cleaned file *)

(** X8: when the search term has no line break, the cleaned file ends with
    the line of the search-term comment followed by the closing tag,
    whatever was downloaded. *)
Theorem comment_ends_cleaned_file (downloaded search_term : string) :
  no_line_break search_term = true ->
  exists body : string,
    remove_header_lines (downloaded +:+ search_term_comment search_term)
    = body +:+ comment_line search_term +:+ closing_tag.
Proof.
  intros Hterm. rewrite remove_header_lines_spec, comment_is_last_line by done.
  set (L := open_r (downloaded +:+ NL)).
  set (cl := comment_line search_term).
  destruct (Nat.lt_ge_cases (List.length L) 10) as [Hshort | Hlong].
  - exists (cat L).
    rewrite firstn_all2 by (rewrite length_app; cbn; lia).
    rewrite skipn_all2 by (rewrite length_app; cbn; lia).
    cbn [List.filter app]. rewrite !cat_app, !cat_cons.
    cbn [cat fold_right]. by rewrite !append_nil_r, append_assoc.
  - exists (cat (firstn 10 L) +:+ cat (List.filter kept (skipn 10 L))).
    rewrite firstn_app, skipn_app.
    replace (10 - List.length L)%nat with 0%nat by lia.
    rewrite firstn_O, skipn_O, app_nil_r, List.filter_app.
    change (List.filter kept [cl]) with [cl].
    rewrite !cat_app, !cat_cons. cbn [cat fold_right].
    by rewrite !append_nil_r, !append_assoc.
Qed.

Lemma comment_ends_cleaned_file_witness :
  exists body : string,
    remove_header_lines (batch_text 0 +:+ search_term_comment "crispr")
    = body +:+ comment_line "crispr" +:+ closing_tag.
Proof.
  apply (comment_ends_cleaned_file (batch_text 0) "crispr"). reflexivity.
Defined.

Lemma artifact_false (line : string) :
  artifact line = false <->
  forall rest : string,
    line <> "<?xml version" +:+ rest /\
    line <> "<!DOCTYPE PubmedArticleSet PUBLIC" +:+ rest /\
    line <> "<PubmedArticleSet" +:+ rest /\
    line <> "</PubmedArticleSet" +:+ rest.
Proof.
  unfold artifact. rewrite !orb_false_iff. split.
  - intros [[[H1 H2] H3] H4] rest.
    repeat split; intros ->.
    + rewrite (proj2 (prefix_append _ _)) in H1; [done | by exists rest].
    + rewrite (proj2 (prefix_append _ _)) in H2; [done | by exists rest].
    + rewrite (proj2 (prefix_append _ _)) in H3; [done | by exists rest].
    + rewrite (proj2 (prefix_append _ _)) in H4; [done | by exists rest].
  - intros H.
    repeat split; apply not_true_is_false; intros Hp;
      apply prefix_append in Hp as [rest ->];
      destruct (H rest) as (H1 & H2 & H3 & H4); congruence.
Qed.

(** X9: reading back the cleaned file made from a batched file that ends
    with a newline gives the first ten lines of the batched file, then, in
    order, exactly those of its later lines that start with none of
    ["<?xml version"], ["<!DOCTYPE PubmedArticleSet PUBLIC"],
    ["<PubmedArticleSet"] and ["</PubmedArticleSet"], then the closing tag
    as the last line. *)
Theorem cleaned_file_lines (t : string) :
  let ls := open_r (t +:+ NL) in
  let middle :=
    List.filter (fun line => negb (artifact line)) (skipn 10 ls) in
  open_r (remove_header_lines (t +:+ NL))
  = (firstn 10 ls ++ middle ++ ["</PubmedArticleSet>" +:+ NL])%list /\
  (forall line : string,
     In line middle <->
     In line (skipn 10 ls) /\
     forall rest : string,
       line <> "<?xml version" +:+ rest /\
       line <> "<!DOCTYPE PubmedArticleSet PUBLIC" +:+ rest /\
       line <> "<PubmedArticleSet" +:+ rest /\
       line <> "</PubmedArticleSet" +:+ rest).
Proof.
  intros ls middle. split.
  - rewrite remove_header_lines_spec, filter_kept_artifact.
    fold ls. fold middle. apply open_r_cat.
    assert (forallb complete_line ls = true) as Hls by apply open_r_complete.
    rewrite !forallb_app, forallb_firstn by done.
    unfold middle. rewrite forallb_filter by (by apply forallb_skipn). done.
  - intros line. unfold middle.
    by rewrite filter_In, negb_true_iff, artifact_false.
Qed.

(** A later header line is not read back, an early one is. *)
Example sample_stream_read_back :
  open_r (remove_header_lines (sample_stream +:+ NL))
  = [ "<?xml version=1.0 ?>" +:+ NL;
      "<!DOCTYPE PubmedArticleSet PUBLIC>" +:+ NL;
      "<PubmedArticleSet>" +:+ NL;
      "<PubmedArticle>" +:+ NL;
      "<PMID>1</PMID>" +:+ NL;
      "<Article>" +:+ NL;
      "<ArticleTitle>One</ArticleTitle>" +:+ NL;
      "</Article>" +:+ NL;
      "</PubmedArticle>" +:+ NL;
      NL;
      "<PubmedArticle><PMID>2</PMID></PubmedArticle>" +:+ NL;
      "<!--Generated by PubMed search term: crispr-->" +:+ NL;
      "</PubmedArticleSet>" +:+ NL ].
Proof. by vm_compute. Qed.

(** * Further properties of article_from_pubmed *)

Lemma article_fields_authors (root : ET.Element) :
  article_fields root !! "authors"
  = Some (PyList (List.map (fun surname => of_text (ET.text surname))
                           (ET.findall root path_LastName))).
Proof.
  unfold article_fields.
  destruct (ET.find root path_Abstract) as [a|]; [destruct (ET.truthy a) |];
    by simplify_map_eq.
Qed.

Lemma article_fields_title (root : ET.Element) :
  article_fields root !! "title"
  = Some (of_text (ET.findtext root path_ArticleTitle)).
Proof.
  unfold article_fields.
  destruct (ET.find root path_Abstract) as [a|]; [destruct (ET.truthy a) |];
    by simplify_map_eq.
Qed.

Lemma article_fields_journal (root : ET.Element) :
  article_fields root !! "journal"
  = Some (of_text (ET.findtext root path_ISOAbbreviation)).
Proof.
  unfold article_fields.
  destruct (ET.find root path_Abstract) as [a|]; [destruct (ET.truthy a) |];
    by simplify_map_eq.
Qed.

(** A key the function never assigns is not in the dictionary. *)
Lemma article_fields_unset (root : ET.Element) (k : string) :
  k <> "doi" -> k <> "pmid" -> k <> "my_id" -> k <> "authors" ->
  k <> "title" -> k <> "journal" -> k <> "year" -> k <> "abstract" ->
  article_fields root !! k = None.
Proof.
  intros H1 H2 H3 H4 H5 H6 H7 H8.
  assert (resolve_my_id (scanned root) !! k = None) as Hnone.
  { rewrite resolve_my_id_keeps by done. unfold scanned.
    by rewrite scan_ids_other. }
  unfold article_fields. fold (scanned root).
  destruct (ET.find root path_Abstract) as [a|]; [destruct (ET.truthy a) |];
    by rewrite !lookup_insert_ne.
Qed.

Lemma findtext_None (root : ET.Element) (path : list ET.step) :
  of_text (ET.findtext root path) = PyNone <-> ET.findall root path = [].
Proof.
  unfold ET.findtext, ET.find, ET.findall.
  destruct (ET.iterfind root path) as [|e l]; cbn; split; done.
Qed.

Lemma flat_map_flat_map {A B C} (f : A -> list B) (g : B -> list C)
    (l : list A) :
  List.flat_map g (List.flat_map f l)
  = List.flat_map (fun x => List.flat_map g (f x)) l.
Proof.
  induction l as [|x l IH]; [done |]. cbn [List.flat_map].
  by rewrite flat_map_app, IH.
Qed.

Lemma findall_LastName (root : ET.Element) :
  ET.findall root path_LastName
  = List.flat_map
      (fun author_list =>
         List.flat_map
           (fun author =>
              List.filter (ET.has_tag "LastName") (ET.children author))
           (List.filter (ET.has_tag "Author") (ET.children author_list)))
      (List.filter (ET.has_tag "AuthorList")
                   (List.flat_map ET.iter (ET.children root))).
Proof.
  unfold ET.findall, ET.iterfind, path_LastName.
  cbn [fold_left ET.select List.flat_map].
  by rewrite app_nil_r, flat_map_flat_map.
Qed.

Lemma find_descendant (root : ET.Element) (t : string) :
  ET.find root [ET.Descendant t]
  = List.head (List.filter (ET.has_tag t)
                           (List.flat_map ET.iter (ET.children root))).
Proof.
  unfold ET.find, ET.iterfind. cbn [fold_left ET.select List.flat_map].
  by rewrite app_nil_r.
Qed.

Lemma findtext_descendant (root : ET.Element) (t : string) :
  of_text (ET.findtext root [ET.Descendant t])
  = match List.filter (ET.has_tag t)
                      (List.flat_map ET.iter (ET.children root)) with
    | [] => PyNone
    | e :: _ => PyStr (ET.or_empty (ET.text e))
    end.
Proof.
  unfold ET.findtext. rewrite find_descendant.
  by destruct (List.filter _ _) as [|e l].
Qed.

(** X10: the other fields of the returned article.  [authors] lists the
    AuthorList elements strictly below the root in document order, for each
    of them its Author children in order, and for each of those its
    LastName children in order: one entry per such LastName, its text or
    [None] when it has none.  [title] and [journal] are [None] when no
    ArticleTitle, respectively ISOAbbreviation, element exists strictly
    below the root, and otherwise the text of the first such element in
    document order, the empty string when it has none.  [abstract] is
    decided by the first Abstract element strictly below the root in
    document order alone: when it has children, [abstract] is its text
    content followed by the text that follows its end tag; when it has
    none, or when there is no Abstract element, [abstract] is [None].
    [content] and [references] keep their defaults. *)
Theorem article_other_fields (root : ET.Element) :
  let a := article_from_pubmed root in
  let below (t : string) :=
    List.filter (fun e => String.eqb (ET.tag e) t)
                (List.flat_map ET.iter (ET.children root)) in
  let child (t : string) (e : ET.Element) :=
    List.filter (fun c => String.eqb (ET.tag c) t) (ET.children e) in
  authors a
  = PyList
      (List.map (fun e => of_text (ET.text e))
         (List.flat_map
            (fun author_list =>
               List.flat_map (child "LastName") (child "Author" author_list))
            (below "AuthorList"))) /\
  title a = match below "ArticleTitle" with
            | [] => PyNone
            | e :: _ => PyStr (ET.or_empty (ET.text e))
            end /\
  journal a = match below "ISOAbbreviation" with
              | [] => PyNone
              | e :: _ => PyStr (ET.or_empty (ET.text e))
              end /\
  abstract a = match below "Abstract" with
               | [] => PyNone
               | e :: _ =>
                   match ET.children e with
                   | [] => PyNone
                   | _ :: _ =>
                       PyStr (ET.itertext e +:+ ET.or_empty (ET.tail e))
                   end
               end /\
  content a = PyNone /\
  references a = PyList [].
Proof.
  intros a below child. subst a. unfold article_from_pubmed, Article_init.
  cbn [authors title journal abstract content references].
  rewrite article_fields_authors, article_fields_title, article_fields_journal.
  rewrite article_fields_abstract.
  rewrite !article_fields_unset by done.
  change (default PyNone (Some ?x)) with x.
  split; [by rewrite findall_LastName |].
  split; [apply findtext_descendant |].
  split; [apply findtext_descendant |].
  split; [| done].
  unfold path_Abstract. rewrite find_descendant.
  change (List.filter (ET.has_tag "Abstract")
            (List.flat_map ET.iter (ET.children root)))
    with (below "Abstract").
  destruct (below "Abstract") as [|e l]; [done |]. cbn [List.head].
  unfold ET.truthy, ET.tostring_text. by destruct (ET.children e).
Qed.

(** The order of [authors] is not the order of the LastName elements in the
    document: the surname of an author list nested in an author comes after
    the surnames of the outer list, also where it stands before them. *)
Example authors_of_nested_lists :
  authors (article_from_pubmed nested_author_lists)
  = PyList [PyStr "Outer"; PyStr "Inner"].
Proof. by vm_compute. Qed.

(** Only the first Abstract element counts: a later one with children is
    not used when the first has none. *)
Example second_abstract_unused :
  abstract (article_from_pubmed two_abstracts) = PyNone.
Proof. by vm_compute. Qed.

Example abstract_flattened :
  abstract (article_from_pubmed
              (ET.Elem "PubmedArticle" [] None
                 [ET.Elem "Abstract" [] (Some "A ")
                    [ET.Elem "i" [] (Some "b") [] (Some " c")]
                    (Some " tail")] None))
  = PyStr "A b c tail".
Proof. by vm_compute. Qed.

(** * Properties of create_corpus *)

Lemma fold_left_append_map {A B} (f : A -> B) (l : list A) (acc : list B) :
  fold_left (fun acc x => (acc ++ [f x])%list) l acc
  = (acc ++ List.map f l)%list.
Proof.
  revert acc. induction l as [|x l IH]; intros acc; cbn.
  - by rewrite app_nil_r.
  - by rewrite IH, <- app_assoc.
Qed.

Lemma findall_descendants (root : ET.Element) (t : string) :
  ET.findall root [ET.Descendant t]
  = List.filter (ET.has_tag t) (List.flat_map ET.iter (ET.children root)).
Proof. unfold ET.findall, ET.iterfind. cbn. by rewrite app_nil_r. Qed.

Lemma corpus_of_root_map (root : ET.Element) :
  corpus_of_root root
  = List.map article_from_pubmed
      (List.filter (ET.has_tag "PubmedArticle")
                   (List.flat_map ET.iter (ET.children root))).
Proof.
  unfold corpus_of_root, path_PubmedArticle.
  by rewrite fold_left_append_map, findall_descendants.
Qed.

Lemma iter_unfold (e : ET.Element) :
  ET.iter e = e :: List.flat_map ET.iter (ET.children e).
Proof. by destruct e. Qed.

Lemma flat_articles (cs : list ET.Element) :
  Forall (fun c => ET.tag c = "PubmedArticle" /\
                   ET.findall c path_PubmedArticle = []) cs ->
  List.filter (ET.has_tag "PubmedArticle") (List.flat_map ET.iter cs) = cs.
Proof.
  induction 1 as [|c cs [Htag Hin] _ IH]; [done |].
  cbn [List.flat_map]. rewrite List.filter_app, IH, iter_unfold.
  cbn [List.filter]. unfold ET.has_tag at 1. rewrite Htag, String.eqb_refl.
  unfold path_PubmedArticle in Hin. rewrite findall_descendants in Hin.
  by rewrite Hin.
Qed.

(** X11: when the cleaned file parses to a tree whose root has only
    PubmedArticle children, none with a PubmedArticle inside, the corpus
    has one article per child, in order, and nothing else changes. *)
Theorem corpus_of_flat_document (parse : string -> reply ET.Element)
    (w : world) (contents : string) (root : ET.Element) :
  file_cleaned w = Some contents ->
  parse (universal_newlines contents) = Returns root ->
  Forall (fun c => ET.tag c = "PubmedArticle" /\
                   ET.findall c path_PubmedArticle = [])
         (ET.children root) ->
  create_corpus parse w
  = Ok (List.map article_from_pubmed (ET.children root)) w.
Proof.
  intros Hfile Hparse Hflat. unfold create_corpus.
  erewrite bind_Ok by (unfold read_cleaned; by rewrite Hfile).
  erewrite bind_Ok by (by rewrite Hparse).
  unfold mret, M_ret. by rewrite corpus_of_root_map, flat_articles.
Qed.

Lemma corpus_of_flat_document_witness :
  create_corpus parse_two_articles cleaned_world
  = Ok (List.map article_from_pubmed (ET.children two_articles))
       cleaned_world.
Proof.
  apply (corpus_of_flat_document parse_two_articles cleaned_world "<doc/>"
           two_articles).
  - reflexivity.
  - reflexivity.
  - repeat constructor.
Defined.

(** X12: [create_corpus] only reads.  It raises when the cleaned file is
    missing or when the parser raises, and otherwise returns one article
    per PubmedArticle element strictly below the root, at any depth and in
    document order; the root itself is never an article.  In every case
    the files and the trace are as before. *)
Theorem create_corpus_reads_only (parse : string -> reply ET.Element)
    (w : world) :
  final_world (create_corpus parse w) = w /\
  create_corpus parse w =
  match file_cleaned w with
  | None => Raise (OtherError "FileNotFoundError") w
  | Some contents =>
      match parse (universal_newlines contents) with
      | Raises e => Raise e w
      | Returns root =>
          Ok (List.map article_from_pubmed
                (List.filter (ET.has_tag "PubmedArticle")
                   (List.flat_map ET.iter (ET.children root)))) w
      end
  end.
Proof.
  unfold create_corpus, read_cleaned, mbind, M_bind.
  destruct (file_cleaned w) as [contents |]; [| done].
  destruct (parse (universal_newlines contents)) as [root | e]; [| done].
  unfold call, mret, M_ret. by rewrite corpus_of_root_map.
Qed.

(** * Properties of get_pubmed_summary *)

Lemma summary_loop_titles (rs : list (gmap string pyval))
    (st : summary_state) :
  Forall (fun r => is_Some (r !! "Title")) rs ->
  (forall k, record_id st <= k -> data st !! k = None) ->
  exists st' : summary_state,
    summary_loop st rs = inl st' /\
    record_id st' = record_id st + Z.of_nat (List.length rs) /\
    printed st' = (printed st ++ List.map title_of rs)%list /\
    (forall (i : nat) r, rs !! i = Some r ->
       data st' !! (record_id st + Z.of_nat i) = Some r) /\
    (forall k, k < record_id st -> data st' !! k = data st !! k) /\
    (forall k, record_id st' <= k -> data st' !! k = None).
Proof.
  intros Hrs. revert st. induction Hrs as [|r rs [t Ht] _ IH]; intros st Hfresh.
  - exists st. cbn. rewrite app_nil_r. repeat split; try done; try lia.
    all: intros k Hk; apply Hfresh; lia.
  - cbn [summary_loop]. unfold summary_step. rewrite Ht.
    rewrite (Hfresh (record_id st)) by lia. cbn [default].
    rewrite (right_id_L ∅ (∪)).
    set (st1 := {| data := <[record_id st := r]> (data st);
                   record_id := record_id st + 1;
                   printed := (printed st ++ [t])%list |}).
    destruct (IH st1) as (st' & Hloop & Hid & Hpr & Hdata & Hold & Hnew).
    { intros k Hk. cbn in *. rewrite lookup_insert_ne by lia.
      apply Hfresh. lia. }
    exists st'. cbn in Hid, Hpr, Hdata, Hold.
    split; [done |]. split; [cbn; lia |].
    split; [rewrite Hpr; cbn; unfold title_of at 2; rewrite Ht;
            by rewrite <- app_assoc |].
    split; [| split].
    + intros [|i] r' Hi; cbn in Hi.
      * injection Hi as <-. rewrite Z.add_0_r, Hold by lia.
        apply lookup_insert_eq.
      * replace (record_id st + Z.of_nat (S i))
          with (record_id st + 1 + Z.of_nat i) by lia.
        by apply Hdata.
    + intros k Hk. rewrite Hold by lia. by rewrite lookup_insert_ne by lia.
    + exact Hnew.
Qed.

Lemma summary_loop_stop (pre post : list (gmap string pyval))
    (r : gmap string pyval) (st : summary_state) :
  Forall (fun r => is_Some (r !! "Title")) pre ->
  r !! "Title" = None ->
  exists st' : summary_state,
    summary_loop st (pre ++ r :: post) = inr (KeyError "Title", st') /\
    printed st' = (printed st ++ List.map title_of pre)%list.
Proof.
  intros Hpre Hr. revert st.
  induction Hpre as [|r0 pre [t Ht] _ IH]; intros st.
  - cbn. unfold summary_step. rewrite Hr. eexists. split; [done |].
    cbn. by rewrite app_nil_r.
  - cbn [app summary_loop]. unfold summary_step at 1. rewrite Ht.
    edestruct IH as (st' & Hloop & Hpr). exists st'.
    split; [exact Hloop |]. rewrite Hpr. cbn.
    unfold title_of at 2. rewrite Ht. by rewrite <- app_assoc.
Qed.

(** X13: when every record has a title, the function prints the titles in
    the order of the records, closes the handle and returns [None]; the
    dictionary it has built by then, which it does not return, holds
    record number [i] under the key [i] and nothing else. *)
Theorem summary_prints_titles (rs : list (gmap string pyval)) :
  Forall (fun r => is_Some (r !! "Title")) rs ->
  get_pubmed_summary (Returns rs)
  = {| outcome := inl PyNone; output := List.map title_of rs;
       closed := true |} /\
  exists st : summary_state,
    summary_loop summary_start rs = inl st /\
    record_id st = Z.of_nat (List.length rs) /\
    (forall i : nat, data st !! Z.of_nat i = rs !! i) /\
    (forall k : Z, k < 0 -> data st !! k = None).
Proof.
  intros Hrs.
  destruct (summary_loop_titles rs summary_start Hrs)
    as (st & Hloop & Hid & Hpr & Hdata & Hold & Hnew); [done |].
  cbn in Hid, Hpr, Hdata, Hold.
  split.
  - unfold get_pubmed_summary. by rewrite Hloop, Hpr.
  - exists st. split; [done |]. split; [lia |]. split.
    + intros i. destruct (rs !! i) as [r |] eqn:Hi.
      * by apply Hdata.
      * apply Hnew. apply lookup_ge_None in Hi. lia.
    + intros k Hk. by rewrite Hold.
Qed.

Lemma summary_prints_titles_witness :
  get_pubmed_summary (Returns [titled "One"; titled "Two"])
  = {| outcome := inl PyNone;
       output := List.map title_of [titled "One"; titled "Two"];
       closed := true |}.
Proof.
  apply (summary_prints_titles [titled "One"; titled "Two"]).
  repeat constructor; by eexists.
Defined.

(** X14: at the first record without a title the function ends with
    [KeyError], after it has printed the titles of the records before it
    and without closing the handle; the records after it are not looked
    at. *)
Theorem summary_stops_at_missing_title (pre post : list (gmap string pyval))
    (r : gmap string pyval) :
  Forall (fun r => is_Some (r !! "Title")) pre ->
  r !! "Title" = None ->
  get_pubmed_summary (Returns (pre ++ r :: post)%list)
  = {| outcome := inr (KeyError "Title");
       output := List.map title_of pre;
       closed := false |}.
Proof.
  intros Hpre Hr.
  destruct (summary_loop_stop pre post r summary_start Hpre Hr)
    as (st & Hloop & Hpr).
  unfold get_pubmed_summary. by rewrite Hloop, Hpr.
Qed.

Lemma summary_stops_at_missing_title_witness :
  get_pubmed_summary
    (Returns ([titled "One"] ++ untitled :: [titled "Two"])%list)
  = {| outcome := inr (KeyError "Title");
       output := List.map title_of [titled "One"];
       closed := false |}.
Proof.
  apply (summary_stops_at_missing_title [titled "One"] [titled "Two"]
           untitled).
  - repeat constructor. by eexists.
  - reflexivity.
Defined.

(** * Errors of the searches and of the post *)

(** X15: only the calls to [efetch] stand in a [try]: an exception raised
    by the first search, by the second search or by the post ends the run
    as it is, after the requests made so far and before any window is
    requested. *)
Theorem search_errors_end_the_run (G : list string) (srv : EntrezService)
    (search_term pubmed_user : string) (pubmed_key : pyval) (batch_size : Z)
    (w : world) (e : exn) :
  let run := get_clean_xml_in G srv search_term pubmed_user pubmed_key
                              batch_size w in
  let after (evs : list event) : world :=
    {| trace := trace w ++ evs;
       file_batched := Some "";
       file_cleaned := file_cleaned w |} in
  (esearch srv search_term 50000 true = Raises e ->
   run = Raise e (after [EvSearch search_term 50000 true])) /\
  (forall (record : gmap string pyval) (s : string) (count : Z)
          (webenv query_key : pyval),
     esearch srv search_term 50000 true = Returns record ->
     record !! "Count" = Some (PyStr s) ->
     parse_int s = Some count ->
     record !! "WebEnv" = Some webenv ->
     record !! "QueryKey" = Some query_key ->
     (esearch srv search_term count false = Raises e ->
      run = Raise e (after [EvSearch search_term 50000 true;
                            EvSearch search_term count false])) /\
     (forall (record2 : gmap string pyval) (id_list : list pyval)
             (ss : list string),
        esearch srv search_term count false = Returns record2 ->
        record2 !! "IdList" = Some (PyList id_list) ->
        count = Z.of_nat (List.length id_list) ->
        str_items id_list = Some ss ->
        epost srv (String.concat "," ss) = Raises e ->
        run = Raise e (after (session_events search_term count
                                             (String.concat "," ss))))).
Proof.
  intros run after. subst run after.
  unfold get_clean_xml_in, open_session. split.
  - intros H1. run. rewrite H1. reflexivity.
  - intros record s count webenv query_key H1 H2 H3 H4 H5. split.
    + intros H6. run. rewrite H1. run. rewrite H2. run.
      unfold py_int. rewrite (parse_int_read _ _ H3). run. rewrite H4, H5. run.
      rewrite H6. run. by rewrite <- app_assoc.
    + intros record2 id_list ss H6 H7 H8 H9 H10.
      run. rewrite H1. run. rewrite H2. run.
      unfold py_int. rewrite (parse_int_read _ _ H3). run. rewrite H4, H5. run.
      rewrite H6. run. rewrite H7. run.
      destruct (Z.eqb_spec count (Z.of_nat (List.length id_list))); [| done].
      run. rewrite H9. run. rewrite H10.
      unfold session_events. by rewrite <- !app_assoc.
Qed.

Lemma search_errors_end_the_run_witness :
  get_clean_xml_in module_globals always_503 "crispr" "me@example.org"
                   (PyStr "key") 2 initial_world
  = Raise (OtherError "unused")
          {| trace := trace initial_world ++ [EvSearch "crispr" 50000 true];
             file_batched := Some "";
             file_cleaned := file_cleaned initial_world |}.
Proof.
  refine (proj1 (search_errors_end_the_run module_globals always_503
                   "crispr" "me@example.org" (PyStr "key") 2 initial_world
                   (OtherError "unused")) _).
  reflexivity.
Defined.
